(** * Portfolio tracker (src/app.py): a shallow embedding and its properties

    The valuation helpers [portfolio_value_over_time], [get_portfolio_table],
    [get_portfolio_stats] and the Dash callback [update_portfolio] are
    embedded as Rocq functions.  Python floats and numpy.float64 values are
    IEEE binary64 numbers and are modelled by the kernel's primitive floats;
    the market-data provider (yfinance) is a parameter of the development. *)

From Stdlib Require Import ZArith List Bool Lia Ascii String Floats.
From Stdlib Require Import Sorting.Sorted.
Import ListNotations.

Set Warnings "-inexact-float".

Open Scope Z_scope.

(** ** Python strings *)

Module PyStr.

(** Strings are sequences of bytes.  On an ASCII string, which is what a
    ticker is, [str.upper] moves the letters a-z to A-Z and keeps every
    other character; [upper] is [str.upper] on such strings only, and what
    is proved about an uppercased ticker assumes [is_ascii] of the input. *)
Definition upper_ascii (c : ascii) : ascii :=
  let n := nat_of_ascii c in
  if (97 <=? n)%nat && (n <=? 122)%nat then ascii_of_nat (n - 32) else c.

Fixpoint upper (s : string) : string :=
  match s with
  | EmptyString => EmptyString
  | String c s' => String (upper_ascii c) (upper s')
  end.

(** Every character is below 128. *)
Fixpoint is_ascii (s : string) : bool :=
  match s with
  | EmptyString => true
  | String c s' => (nat_of_ascii c <? 128)%nat && is_ascii s'
  end.

(** Truth value of a string: empty strings are falsy. *)
Definition truthy (s : string) : bool :=
  match s with
  | EmptyString => false
  | String _ _ => true
  end.

End PyStr.

(** ** Python and numpy floats *)

Module PyFloat.

Open Scope float_scope.

(** Truth value of a number: zero (of either sign) is falsy, everything
    else, NaN included, is truthy. *)
Definition truthy (x : float) : bool := negb (x =? 0).

Definition two52 : float := 4503599627370496.

(** C's [rint] in the default rounding mode (ties to even), which numpy's
    [rint] calls: below 2^52 in magnitude the sum with 2^52 is rounded to
    an integer by the addition itself; larger values, infinities and NaN
    are returned as they are.  A zero result keeps the sign of [x]. *)
Definition rint (x : float) : float :=
  if abs x <? two52 then
    let r := if get_sign x then (x - two52) + two52 else (x + two52) - two52 in
    if is_zero r then (if get_sign x then neg_zero else zero) else r
  else x.

(** [round(x, 2)] on a numpy.float64, as numpy computes it: scale by
    10^2, [rint], scale back. *)
Definition round2 (x : float) : float := rint (x * 100) / 100.

(** Python's [sum(xs)] over numpy.float64 summands: a left fold of [+]
    that starts at 0. *)
Definition sum (xs : list float) : float := fold_left add xs 0.

End PyFloat.

(** ** Formatting floats: the format specs [,.2f] and [.2f] *)

Module PyFormat.

Definition digit (n : Z) : ascii := ascii_of_nat (48 + Z.to_nat n).

(** Decimal digits of a non-negative integer; [fuel] bounds the number of
    digits produced. *)
Fixpoint digits_fuel (fuel : nat) (n : Z) (acc : list ascii) : list ascii :=
  match fuel with
  | O => acc
  | S fuel' =>
      let acc' := digit (n mod 10) :: acc in
      if n <? 10 then acc' else digits_fuel fuel' (n / 10) acc'
  end.

Definition digits (n : Z) : list ascii :=
  digits_fuel (S (Z.to_nat (Z.log2 n))) n [].

(** Thousands separators: a comma before every group of three digits,
    counted from the right. *)
Fixpoint group3 (ds : list ascii) : list ascii :=
  match ds with
  | [] => []
  | d :: rest =>
      if (0 <? List.length rest)%nat && (List.length rest mod 3 =? 0)%nat
      then d :: ","%char :: group3 rest
      else d :: group3 rest
  end.

(** The integer nearest to [m * 2^e * 100], ties to even. *)
Definition hundredths (m : positive) (e : Z) : Z :=
  if 0 <=? e then Z.pos m * Z.pow 2 e * 100
  else
    let num := Z.pos m * 100 in
    let den := Z.pow 2 (- e) in
    let q := num / den in
    let r := num mod den in
    if 2 * r <? den then q
    else if den <? 2 * r then q + 1
    else if Z.even q then q else q + 1.

(** [format(x, ".2f")] when [grouped] is false and [format(x, ",.2f")]
    when it is true: the exact binary value of [x] is rounded to two
    decimals, ties to even. *)
Definition fixed2 (grouped : bool) (x : float) : string :=
  match Prim2SF x with
  | S754_nan => "nan"%string
  | S754_infinity s => if s then "-inf"%string else "inf"%string
  | S754_zero s => if s then "-0.00"%string else "0.00"%string
  | S754_finite s m e =>
      let n := hundredths m e in
      let ip := digits (n / 100) in
      let ip := if grouped then group3 ip else ip in
      let fp := [digit ((n mod 100) / 10); digit (n mod 10)] in
      ((if s then "-" else "") ++ string_of_list_ascii (ip ++ "."%char :: fp))%string
  end.

End PyFormat.

(** ** The snapshot table and the summary line *)

(** One row of the table built by [get_portfolio_table]. *)
Record snapshot : Type := mkSnapshot {
  sTicker : string;
  sShares : float;
  sPurchaseDate : string;
  PurchasePrice : float;
  CurrentPrice : float;
  CurrentValue : float;
  GainLoss : float
}.

Section Stats.

Open Scope float_scope.

Variable table_data : list snapshot.

Definition total_value : float :=
  PyFloat.sum (map CurrentValue table_data).

Definition total_invested : float :=
  PyFloat.sum (map (fun row => PurchasePrice row * sShares row) table_data).

Definition total_gain : float := total_value - total_invested.

Definition gain_percent : float :=
  if 0 <? total_invested then total_gain / total_invested * 100 else 0.

End Stats.

Definition stats_line (tv tg gp : float) : string :=
  ("Total Portfolio Value: $" ++ PyFormat.fixed2 true tv
   ++ " | Total Gain/Loss: $" ++ PyFormat.fixed2 true tg
   ++ " (" ++ PyFormat.fixed2 false gp ++ "%)")%string.

Definition get_portfolio_stats (table_data : list snapshot) : string :=
  match table_data with
  | [] => "No portfolio data yet."%string
  | _ :: _ =>
      stats_line (total_value table_data) (total_gain table_data)
                 (gain_percent table_data)
  end.

(** ** Holdings *)

(** One entry of the [portfolio-store] list.  [Shares] is the JSON number
    the form delivers; [float(...)] of it is the same binary64 value. *)
Record holding : Type := mkHolding {
  Ticker : string;
  Shares : float;
  PurchaseDate : string
}.

(** ** The part of pandas the program uses *)

Module Pandas.

(** A position of a [DatetimeIndex]: days, ordered. *)
Definition date : Type := Z.

(** A date-indexed column of floats, such as [history(...)['Close']].
    A missing value is NaN, as in pandas. *)
Definition series : Type := list (date * float).

(** A frame: the column labels, and one row of cells per index entry. *)
Record DataFrame : Type := mkFrame {
  columns : list string;
  rows : list (date * list float)
}.

(** [pd.DataFrame()] *)
Definition empty_frame : DataFrame := mkFrame [] [].

(** [df.empty]: some axis has length 0. *)
Definition empty (df : DataFrame) : bool :=
  match columns df, rows df with
  | _ :: _, _ :: _ => false
  | _, _ => true
  end.

(** [prices * k] *)
Definition scale (prices : series) (k : float) : series :=
  map (fun dp => (fst dp, (snd dp * k)%float)) prices.

(** [value.to_frame(name)] *)
Definition to_frame (value : series) (name : string) : DataFrame :=
  mkFrame [name] (map (fun dv => (fst dv, [snd dv])) value).

Fixpoint lookup {A : Type} (d : date) (l : list (date * A)) : option A :=
  match l with
  | [] => None
  | (d', a) :: l' => if d =? d' then Some a else lookup d l'
  end.

(** The sorted union of two indexes, built by ordered insertion. *)
Fixpoint insert_date (d : date) (l : list date) : list date :=
  match l with
  | [] => [d]
  | x :: l' =>
      if d <? x then d :: l
      else if d =? x then l
      else x :: insert_date d l'
  end.

Definition union_index (a b : list date) : list date :=
  fold_right insert_date [] (a ++ b).

(** [df.join(value, how='outer')] for a series labelled [name].  pandas
    raises [ValueError] (here [None]) when [name] is already a column of
    [df], since the program gives no suffix.  Otherwise, on indexes in
    strictly increasing date order, which is how a provider returns a
    history, the index is the sorted union, and a cell whose date one side
    lacks is NaN.  An index that repeats a date or is out of order is
    outside this model: whatever is proved about the dates or the cells of
    a join assumes both indexes strictly increasing. *)
Definition join_outer (df : DataFrame) (name : string) (value : series)
  : option DataFrame :=
  if existsb (String.eqb name) (columns df) then None
  else
    let blank := repeat nan (List.length (columns df)) in
    let cell_row d :=
      match lookup d (rows df) with Some r => r | None => blank end in
    let cell_new d :=
      match lookup d value with Some v => v | None => nan end in
    Some (mkFrame (columns df ++ [name])
            (map (fun d => (d, cell_row d ++ [cell_new d]))
                 (union_index (map fst (rows df)) (map fst value)))).

(** [df.ffill()]: along every column, a NaN takes the last value above
    it that is not NaN; a NaN with nothing above it stays. *)
Definition fill_cell (prev x : float) : float :=
  if is_nan x then prev else x.

Fixpoint fill_row (prev r : list float) : list float :=
  match r with
  | [] => []
  | x :: r' =>
      match prev with
      | [] => x :: fill_row [] r'
      | p :: prev' => fill_cell p x :: fill_row prev' r'
      end
  end.

Fixpoint ffill_from (prev : list float) (rs : list (date * list float))
  : list (date * list float) :=
  match rs with
  | [] => []
  | (d, r) :: rs' =>
      let r' := fill_row prev r in
      (d, r') :: ffill_from r' rs'
  end.

Definition ffill (df : DataFrame) : DataFrame :=
  mkFrame (columns df) (ffill_from [] (rows df)).

(** [df.fillna(0)] *)
Definition fillna0 (df : DataFrame) : DataFrame :=
  mkFrame (columns df)
    (map (fun dr => (fst dr,
                     map (fun x => if is_nan x then 0%float else x) (snd dr)))
         (rows df)).

(** One entry of [df.sum(axis=1)]: the cells of a row added from left to
    right, starting from +0.0; so a row of cells that are all -0.0 sums to
    +0.0. *)
Definition sum_row (r : list float) : float := fold_left add r 0%float.

(** [df[name] = df.sum(axis=1)]: the column [name] is replaced when the
    frame has it and appended otherwise. *)
Fixpoint set_cell (cols : list string) (name : string) (r : list float)
  (v : float) : list float :=
  match cols, r with
  | c :: cols', x :: r' =>
      if String.eqb c name then v :: r' else x :: set_cell cols' name r' v
  | _, _ => r ++ [v]
  end.

Definition assign_row_sums (df : DataFrame) (name : string) : DataFrame :=
  mkFrame
    (if existsb (String.eqb name) (columns df) then columns df
     else columns df ++ [name])
    (map (fun dr => (fst dr, set_cell (columns df) name (snd dr) (sum_row (snd dr))))
         (rows df)).

(** The column labelled [name], as a series ([None] when absent). *)
Fixpoint position (name : string) (cols : list string) : option nat :=
  match cols with
  | [] => None
  | c :: cols' =>
      if String.eqb c name then Some O
      else option_map S (position name cols')
  end.

Definition column (df : DataFrame) (name : string) : option series :=
  match position name (columns df) with
  | None => None
  | Some i => Some (map (fun dr => (fst dr, nth i (snd dr) nan)) (rows df))
  end.

End Pandas.

Import Pandas.

(** ** The program, over a price provider *)

(** What [px.line] is given: a title and, when there is data, the series
    plotted on the y axis. *)
Record figure : Type := mkFigure {
  title : string;
  trace : option series
}.

Section Provider.

(** [yf.Ticker(ticker).history(start=date)['Close']] and
    [yf.Ticker(ticker).history(period='1d')['Close']]: the closing prices
    by date, or [None] when the call raises. *)
Variable history_start : string -> string -> option series.
Variable history_1d : string -> option series.

(** The body of the loop of [portfolio_value_over_time] for one row; an
    exception raised inside the [try] leaves [combined] as it was. *)
Definition add_to_combined (combined : option DataFrame) (row : holding)
  : option DataFrame :=
  match history_start (Ticker row) (PurchaseDate row) with
  | None => combined
  | Some prices =>
      let value := scale prices (Shares row) in
      match combined with
      | None => Some (to_frame value (Ticker row))
      | Some c =>
          match join_outer c "Close" value with
          | Some c' => Some c'
          | None => combined
          end
      end
  end.

Definition portfolio_value_over_time (portfolio_list : list holding)
  : DataFrame :=
  match portfolio_list with
  | [] => empty_frame
  | _ :: _ =>
      match fold_left add_to_combined portfolio_list None with
      | None => empty_frame
      | Some combined =>
          assign_row_sums (fillna0 (ffill combined)) "Total"
      end
  end.

(** [hist['Close'].iloc[0]] and [history(period='1d')['Close'].iloc[-1]]
    for a holding, when the fetch gives them. *)
Definition first_close (stock : holding) : option float :=
  match history_start (Ticker stock) (PurchaseDate stock) with
  | Some ((_, p) :: _) => Some p
  | _ => None
  end.

Definition last_close (stock : holding) : option float :=
  match history_1d (Ticker stock) with
  | Some cur =>
      match rev cur with
      | (_, c) :: _ => Some c
      | [] => None
      end
  | None => None
  end.

(** The body of the loop of [get_portfolio_table] for one holding: the
    row to append, or [None] when the holding is skipped (no history, or
    an exception caught by the [except]). *)
Definition snapshot_of (stock : holding) : option snapshot :=
  let ticker := Ticker stock in
  let shares := Shares stock in
  let purchase_date := PurchaseDate stock in
  match history_start ticker purchase_date with
  | None => None
  | Some [] => None
  | Some ((_, purchase_price) :: _) =>
      match history_1d ticker with
      | None => None
      | Some cur =>
          match rev cur with
          | [] => None
          | (_, current_price) :: _ =>
              let current_value := (shares * current_price)%float in
              let gain_loss :=
                ((current_price - purchase_price) * shares)%float in
              Some (mkSnapshot ticker shares purchase_date
                      (PyFloat.round2 purchase_price)
                      (PyFloat.round2 current_price)
                      (PyFloat.round2 current_value)
                      (PyFloat.round2 gain_loss))
          end
      end
  end.

Definition append_snapshot (table_data : list snapshot) (stock : holding)
  : list snapshot :=
  match snapshot_of stock with
  | Some row => table_data ++ [row]
  | None => table_data
  end.

Definition get_portfolio_table (portfolio_list : list holding)
  : list snapshot :=
  fold_left append_snapshot portfolio_list [].

(** Truth value of an optional input: [None] is falsy. *)
Definition truthy_opt {A : Type} (t : A -> bool) (o : option A) : bool :=
  match o with
  | None => false
  | Some a => t a
  end.

Definition update_portfolio (n_clicks : option Z) (ticker : option string)
  (shares : option float) (date : option string)
  (portfolio_data : option (list holding))
  : list holding * figure * list snapshot * string :=
  let portfolio_data :=
    match portfolio_data with
    | None => []
    | Some l => l
    end in
  let portfolio_data :=
    match n_clicks, ticker, shares, date with
    | Some n, Some t, Some s, Some d =>
        if negb (n =? 0) && PyStr.truthy t && PyFloat.truthy s
           && PyStr.truthy d
        then portfolio_data ++ [mkHolding (PyStr.upper t) s d]
        else portfolio_data
    | _, _, _, _ => portfolio_data
    end in
  let data := portfolio_value_over_time portfolio_data in
  let fig :=
    if empty data then mkFigure "No stocks in portfolio yet." None
    else mkFigure "Portfolio Value Over Time" (column data "Total") in
  let table := get_portfolio_table portfolio_data in
  let stats := get_portfolio_stats table in
  (portfolio_data, fig, table, stats).

End Provider.

(** ** Stub providers for concrete runs *)

(** A provider that answers from a fixed book of closing prices and raises
    for a ticker the book lacks. *)
Fixpoint quotes (book : list (string * series)) (ticker : string)
  : option series :=
  match book with
  | [] => None
  | (t, s) :: book' => if String.eqb t ticker then Some s else quotes book' ticker
  end.

Definition stub_start (book : list (string * series)) (ticker date : string)
  : option series := quotes book ticker.

Definition stub_1d (book : list (string * series)) (ticker : string)
  : option series := quotes book ticker.

(** The first component of the callback's result: the new store. *)
Definition new_store {B C D : Type} (r : list holding * B * C * D)
  : list holding := fst (fst (fst r)).

(** The list the callback starts from: a missing store is the empty list. *)
Definition stored (portfolio_data : option (list holding)) : list holding :=
  match portfolio_data with
  | None => []
  | Some l => l
  end.

(** ** Definitions used to state the properties *)

(** The row built for a holding whose raw prices are [p] and [c]. *)
Definition row_of (stock : holding) (p c : float) : snapshot :=
  mkSnapshot (Ticker stock) (Shares stock) (PurchaseDate stock)
    (PyFloat.round2 p) (PyFloat.round2 c)
    (PyFloat.round2 (Shares stock * c))
    (PyFloat.round2 ((c - p) * Shares stock)).

(** The spec's "filled" value of a series at date [d]: the value at its
    most recent date not after [d] that has one, and 0 when the series has
    no value up to [d]. *)
Definition filled_at (value : series) (d : date) (c : float) : Prop :=
  (exists d', d' <= d /\ In (d', c) value /\ is_nan c = false
              /\ forall e w, In (e, w) value -> is_nan w = false ->
                             e <= d -> e <= d')
  \/ (c = 0%float
      /\ forall e w, In (e, w) value -> e <= d -> is_nan w = true).

(** What the fill carries down a column after the dates in [P]: the value
    at the latest of them that has one, or NaN when none has. *)
Definition carried (P : date -> Prop) (value : series) (x : float) : Prop :=
  (is_nan x = false
   /\ exists d', P d' /\ In (d', x) value
                 /\ forall e w, In (e, w) value -> is_nan w = false ->
                                P e -> e <= d')
  \/ (is_nan x = true
      /\ forall e w, In (e, w) value -> P e -> is_nan w = true).

Definition before (idx : list date) (e : date) : Prop :=
  forall i, In i idx -> e < i.

(** Every date of the series is still to come in [idx] or lies before all
    of it. *)
Definition covers (value : series) (idx : list date) : Prop :=
  forall e w, In (e, w) value -> In e idx \/ before idx e.

(** The cell a join gives a series at date [d]. *)
Definition cell (value : series) (d : date) : float :=
  match lookup d value with
  | Some v => v
  | None => nan
  end.

(** The frame the loop holds after two successful fetches: one row per
    date of the sorted union, with the cell of each series. *)
Definition joined_rows (v1 v2 : series) : list (date * list float) :=
  map (fun d => (d, [cell v1 d; cell v2 d]))
      (union_index (map fst v1) (map fst v2)).

(** ** Definitions used to state further properties *)

(** The holding's history fetch does not raise. *)
Definition fetched (history_start : string -> string -> option series)
  (h : holding) : bool :=
  match history_start (Ticker h) (PurchaseDate h) with
  | Some _ => true
  | None => false
  end.

(** The provider answers both fetches for the holding, the history since
    the purchase date and the one-day history, with at least one row. *)
Definition quoted (history_start : string -> string -> option series)
  (history_1d : string -> option series) (h : holding) : bool :=
  match history_start (Ticker h) (PurchaseDate h), history_1d (Ticker h) with
  | Some (_ :: _), Some (_ :: _) => true
  | _, _ => false
  end.

(** The other components of the callback's result. *)
Definition figure_of {A C D : Type} (r : A * figure * C * D) : figure :=
  snd (fst (fst r)).

Definition table_of {A B D : Type} (r : A * B * list snapshot * D)
  : list snapshot := snd (fst r).

Definition stats_of {A B C : Type} (r : A * B * C * string) : string :=
  snd r.

(** What [update_portfolio] leaves of a record in the table: the three
    fields copied from the holding. *)
Definition key_of_holding (h : holding) : string * float * string :=
  (Ticker h, Shares h, PurchaseDate h).

Definition key_of_row (r : snapshot) : string * float * string :=
  (sTicker r, sShares r, sPurchaseDate r).

(** A holding as the callback appends one: an uppercased, non-empty
    ticker, shares that are not zero, a non-empty date. *)
Definition well_formed (h : holding) : Prop :=
  PyStr.upper (Ticker h) = Ticker h
  /\ Ticker h <> ""%string
  /\ PyFloat.truthy (Shares h) = true
  /\ PurchaseDate h <> ""%string.

(** Every row of the frame has one cell per column. *)
Definition rectangular (df : DataFrame) : Prop :=
  Forall (fun dr => List.length (snd dr) = List.length (columns df)) (rows df).

(** The figure of a portfolio without data. *)
Definition no_stocks_figure : figure :=
  mkFigure "No stocks in portfolio yet." None.

(** ** Books for the concrete runs *)

(** The spec's end-to-end scenario: AAPL bought at 125.00, now at 150.00. *)
Definition book2 : list (string * series) :=
  [("AAPL"%string, [(1, 125%float); (2, 130%float); (3, 150%float)])].

(** Three tickers with different trading days. *)
Definition book3 : list (string * series) :=
  [("AAA"%string, [(1, 10%float); (2, 11%float); (4, 12%float)]);
   ("BBB"%string, [(2, 5%float); (3, 6%float)]);
   ("CCC"%string, [(1, 100%float); (5, 200%float)])].

Definition three_holdings : list holding :=
  [mkHolding "AAA" 2 "2024-01-01"; mkHolding "BBB" 1 "2024-01-02";
   mkHolding "CCC" 1 "2024-01-01"].

(** The spec's rounding example: bought at 100.005, now at 110.004. *)
Definition book_bought : list (string * series) :=
  [("AAPL"%string, [(1, 100.005%float)])].

Definition book_now : list (string * series) :=
  [("AAPL"%string, [(9, 110.004%float)])].

(** A purchase price that rounds to 0.00: bought at 0.001, now at 0.50. *)
Definition book_penny : list (string * series) :=
  [("AAPL"%string, [(1, 0.001%float)])].

Definition book_half : list (string * series) :=
  [("AAPL"%string, [(9, 0.5%float)])].

(** Ten shares bought on 2023-01-03. *)
Definition ten_shares : list holding := [mkHolding "AAPL" 10 "2023-01-03"].

(** Inequality of two floats that evaluate to different numbers. *)
Ltac float_neq :=
  let H := fresh in
  intros H;
  match type of H with
  | ?a = ?b => apply (f_equal (fun x => PrimFloat.eqb x b)) in H
  end;
  vm_compute in H; discriminate H.

(** * Properties *)

(** ** The spec's scenarios, run *)

Example end_to_end_scenario :
  update_portfolio (stub_start book2) (stub_1d book2)
    (Some 1) (Some "aapl"%string) (Some 10%float) (Some "2023-01-03"%string)
    (Some [])
  = ([mkHolding "AAPL" 10 "2023-01-03"],
     mkFigure "Portfolio Value Over Time"
       (Some [(1, 1250%float); (2, 1300%float); (3, 1500%float)]),
     [mkSnapshot "AAPL" 10 "2023-01-03" 125 150 1500 250],
     "Total Portfolio Value: $1,500.00 | Total Gain/Loss: $250.00 (20.00%)"%string).
Proof. vm_compute. reflexivity. Qed.

Example first_render :
  update_portfolio (stub_start book2) (stub_1d book2) None None None None None
  = ([], mkFigure "No stocks in portfolio yet." None, [],
     "No portfolio data yet."%string).
Proof. vm_compute. reflexivity. Qed.

Example round2_runs :
  map PyFloat.round2 [100.005; 110.004; 2.5; 0.125; -1.239; 1100.04]%float
  = [100; 110; 2.5; 0.12; -1.24; 1100.04]%float.
Proof. vm_compute. reflexivity. Qed.

Example fixed2_runs :
  map (PyFormat.fixed2 true) [1234567.891; 0.125; -1234.5; 999.999; 0]%float
  = ["1,234,567.89"; "0.12"; "-1,234.50"; "1,000.00"; "0.00"]%string.
Proof. vm_compute. reflexivity. Qed.

(** ** Facts about floats and strings *)

Lemma negative_is_truthy (s : float) :
  (s <? 0)%float = true -> PyFloat.truthy s = true.
Proof.
  unfold PyFloat.truthy.
  rewrite ltb_spec, eqb_spec.
  unfold SFltb, SFeqb.
  destruct (SFcompare (Prim2SF s) (Prim2SF 0)) as [[ | | ] | ];
    intros H; try discriminate H; reflexivity.
Qed.

Lemma truthy_nonempty (s : string) : s <> ""%string -> PyStr.truthy s = true.
Proof.
  destruct s; [intros H; now elim H | reflexivity].
Qed.

(** Adding to +0.0 changes nothing but the sign of a negative zero. *)
Lemma zero_plus (x : float) :
  Prim2SF (0 + x)
  = match Prim2SF x with
    | S754_zero _ => S754_zero false
    | sf => sf
    end.
Proof.
  rewrite add_spec. change (Prim2SF 0) with (S754_zero false).
  destruct (Prim2SF x) as [[ | ] | [ | ] | | [ | ] m e]; reflexivity.
Qed.

Lemma zero_plus_same (x : float) :
  Prim2SF x <> S754_zero true -> (0 + x)%float = x.
Proof.
  intros H. apply Prim2SF_inj. rewrite zero_plus.
  destruct (Prim2SF x) as [[ | ] | | | ]; try reflexivity. now elim H.
Qed.

Lemma negative_zero (x : float) : Prim2SF x = S754_zero true -> x = neg_zero.
Proof.
  intros H. apply Prim2SF_inj. rewrite H. reflexivity.
Qed.

(** The sum of two cells as pandas adds them: [x + y], except that two
    negative zeros give +0.0 where [x + y] is -0.0. *)
Lemma sum_of_two (x y : float) :
  (0 + x + y)%float = (x + y)%float
  \/ (x = neg_zero /\ y = neg_zero /\ (0 + x + y)%float = 0%float).
Proof.
  destruct (Prim2SF x) as [[ | ] | | | ] eqn:Ex;
    try (left; rewrite zero_plus_same; [reflexivity | rewrite Ex; discriminate]).
  apply negative_zero in Ex. subst x.
  destruct (Prim2SF y) as [[ | ] | | | ] eqn:Ey.
  2-5: left; change (0 + neg_zero)%float with 0%float;
       rewrite zero_plus_same by (rewrite Ey; discriminate);
       apply Prim2SF_inj; rewrite add_spec, Ey; reflexivity.
  apply negative_zero in Ey. subst y. right. repeat split; reflexivity.
Qed.

(** ** The state transition of [update_portfolio] *)

Section Transition.

Variable history_start : string -> string -> option series.
Variable history_1d : string -> option series.

Local Abbreviation callback := (update_portfolio history_start history_1d).

Lemma store_when_valid (n : Z) (t : string) (s : float) (d : string)
  (data : option (list holding)) :
  n <> 0 -> t <> ""%string -> PyFloat.truthy s = true -> d <> ""%string ->
  new_store (callback (Some n) (Some t) (Some s) (Some d) data)
  = stored data ++ [mkHolding (PyStr.upper t) s d].
Proof.
  intros Hn Ht Hs Hd.
  unfold callback, update_portfolio, new_store; cbn [fst].
  apply Z.eqb_neq in Hn.
  rewrite Hn, (truthy_nonempty t Ht), Hs, (truthy_nonempty d Hd).
  reflexivity.
Qed.

Lemma store_when_skipped (n_clicks : option Z) (ticker : option string)
  (shares : option float) (date : option string)
  (data : option (list holding)) :
  truthy_opt (fun n => negb (n =? 0)) n_clicks
    && truthy_opt PyStr.truthy ticker
    && truthy_opt PyFloat.truthy shares
    && truthy_opt PyStr.truthy date = false ->
  new_store (callback n_clicks ticker shares date data) = stored data.
Proof.
  intros H.
  unfold callback, update_portfolio, new_store; cbn [fst].
  destruct n_clicks as [n | ], ticker as [t | ], shares as [s | ],
    date as [d | ]; try reflexivity.
  cbn [truthy_opt] in H. rewrite H. reflexivity.
Qed.


(** C5: when the ticker, the shares or the date is missing ([None]) or
    empty (falsy), the returned store is the input list, unchanged. *)
Theorem add_holding_missing_field (n_clicks : option Z)
  (ticker : option string) (shares : option float) (date : option string)
  (data : option (list holding)) :
  truthy_opt PyStr.truthy ticker = false
  \/ truthy_opt PyFloat.truthy shares = false
  \/ truthy_opt PyStr.truthy date = false ->
  let new := new_store (callback n_clicks ticker shares date data) in
  new = stored data /\ List.length new = List.length (stored data).
Proof.
  intros H new.
  assert (E : new = stored data).
  { apply store_when_skipped.
    destruct H as [H | [H | H]]; rewrite H;
      rewrite ?andb_false_r; reflexivity. }
  rewrite E. split; reflexivity.
Qed.

(** C9: shares equal to the number 0 count as a missing input, so the
    store is returned unchanged; negative shares are appended like any
    other holding: one record with those shares and that date (and, for
    an ASCII ticker, the uppercased ticker). *)
Theorem zero_shares_skipped_negative_appended (n_clicks : option Z)
  (ticker date : option string) (data : option (list holding))
  (n : Z) (t d : string) (s : float) :
  n <> 0 -> t <> ""%string -> d <> ""%string -> (s <? 0)%float = true ->
  new_store (callback n_clicks ticker (Some 0%float) date data) = stored data
  /\ exists r,
       new_store (callback (Some n) (Some t) (Some s) (Some d) data)
       = stored data ++ [r]
       /\ Shares r = s /\ PurchaseDate r = d
       /\ (PyStr.is_ascii t = true -> Ticker r = PyStr.upper t).
Proof.
  intros Hn Ht Hd Hs. split.
  - apply store_when_skipped. cbn [truthy_opt].
    replace (PyFloat.truthy 0) with false by reflexivity.
    rewrite andb_false_r. reflexivity.
  - exists (mkHolding (PyStr.upper t) s d). split.
    + apply store_when_valid; try assumption.
      apply negative_is_truthy, Hs.
    + cbn. auto.
Qed.

End Transition.

(** ** The summary line *)

(** C7: on an empty table [get_portfolio_stats] returns the fixed text
    "No portfolio data yet.", which is not a formatted stats line for any
    totals, zero totals included. *)
Theorem stats_of_empty_table :
  get_portfolio_stats [] = "No portfolio data yet."%string
  /\ get_portfolio_stats [] <> stats_line 0 0 0
  /\ forall tv tg gp : float, get_portfolio_stats [] <> stats_line tv tg gp.
Proof.
  split; [reflexivity | split].
  - intros H. discriminate H.
  - intros tv tg gp H. discriminate H.
Qed.

(** ** The snapshot table *)

Section Table.

Variable history_start : string -> string -> option series.
Variable history_1d : string -> option series.

Local Abbreviation snap := (snapshot_of history_start history_1d).
Local Abbreviation table := (get_portfolio_table history_start history_1d).
Local Abbreviation bought_at := (first_close history_start).
Local Abbreviation now_at := (last_close history_1d).

Lemma snapshot_of_some (stock : holding) (row : snapshot) :
  snap stock = Some row <->
  exists p c, bought_at stock = Some p /\ now_at stock = Some c
              /\ row = row_of stock p c.
Proof.
  unfold snapshot_of, first_close, last_close, row_of.
  destruct (history_start (Ticker stock) (PurchaseDate stock))
    as [[ | [d0 p] hist] | ].
  - split; [discriminate | intros (p & c & H & _); discriminate H].
  - destruct (history_1d (Ticker stock)) as [cur | ].
    + destruct (rev cur) as [ | [d1 c] cur'].
      * split; [discriminate | intros (p' & c' & _ & H & _); discriminate H].
      * split.
        -- intros H. injection H as <-. now exists p, c.
        -- intros (p' & c' & Hp & Hc & ->).
           injection Hp as <-. injection Hc as <-. reflexivity.
    + split; [discriminate | intros (p' & c' & _ & H & _); discriminate H].
  - split; [discriminate | intros (p & c & H & _); discriminate H].
Qed.

Lemma snapshot_of_none (stock : holding) :
  snap stock = None <->
  bought_at stock = None \/ now_at stock = None.
Proof.
  destruct (snap stock) as [row | ] eqn:E.
  - apply snapshot_of_some in E. destruct E as (p & c & Hp & Hc & _).
    rewrite Hp, Hc. split; [discriminate | intros [H | H]; discriminate H].
  - split; [ | reflexivity]. intros _.
    destruct (bought_at stock) as [p | ] eqn:Hp; [ | now left].
    destruct (now_at stock) as [c | ] eqn:Hc; [ | now right].
    assert (H : snap stock = Some (row_of stock p c))
      by (apply snapshot_of_some; now exists p, c).
    rewrite E in H. discriminate H.
Qed.

Lemma table_loop (portfolio_list : list holding) (acc : list snapshot) :
  fold_left (append_snapshot history_start history_1d) portfolio_list acc
  = acc ++ table portfolio_list.
Proof.
  unfold get_portfolio_table.
  revert acc. induction portfolio_list as [ | stock rest IH]; intros acc.
  - cbn. now rewrite app_nil_r.
  - cbn [fold_left]. rewrite IH, (IH (append_snapshot _ _ [] stock)).
    unfold append_snapshot. destruct (snap stock).
    + cbn. now rewrite <- app_assoc.
    + reflexivity.
Qed.

Lemma table_cons (stock : holding) (rest : list holding) :
  table (stock :: rest)
  = match snap stock with
    | Some row => row :: table rest
    | None => table rest
    end.
Proof.
  unfold get_portfolio_table at 1. cbn [fold_left].
  rewrite table_loop. unfold append_snapshot.
  destruct (snap stock); reflexivity.
Qed.

Lemma table_rows (portfolio_list : list holding) (row : snapshot) :
  In row (table portfolio_list) ->
  exists stock p c,
    In stock portfolio_list /\ bought_at stock = Some p
    /\ now_at stock = Some c /\ row = row_of stock p c.
Proof.
  induction portfolio_list as [ | stock rest IH].
  - intros [].
  - rewrite table_cons. intros H.
    destruct (snap stock) as [row' | ] eqn:E.
    + destruct H as [<- | H].
      * apply snapshot_of_some in E. destruct E as (p & c & Hp & Hc & ->).
        exists stock, p, c. cbn. auto.
      * destruct (IH H) as (st & p & c & Hin & Hr).
        exists st, p, c. cbn. auto.
    + destruct (IH H) as (st & p & c & Hin & Hr).
      exists st, p, c. cbn. auto.
Qed.

(** C2, as the code has it: the two prices of a row are rounded for the
    table, while [CurrentValue] and [GainLoss] are computed from the prices
    as fetched, at full precision, and rounded afterwards. *)
Theorem snapshot_rounds_after_deriving (portfolio_list : list holding)
  (row : snapshot) :
  In row (table portfolio_list) ->
  exists stock p c,
    In stock portfolio_list
    /\ bought_at stock = Some p /\ now_at stock = Some c
    /\ sShares row = Shares stock
    /\ PurchasePrice row = PyFloat.round2 p
    /\ CurrentPrice row = PyFloat.round2 c
    /\ CurrentValue row = PyFloat.round2 (Shares stock * c)
    /\ GainLoss row = PyFloat.round2 ((c - p) * Shares stock).
Proof.
  intros H. destruct (table_rows _ _ H) as (stock & p & c & Hin & Hp & Hc & ->).
  exists stock, p, c. cbn. repeat split; assumption.
Qed.

(** C6: of two holdings, one with a fetch that raises or comes back
    empty and one whose fetches both give prices, the table keeps exactly
    the row of the second, in either order, and the summary is computed
    from that row alone. *)
Theorem failing_holding_dropped (bad good : holding) (d0 d1 : date)
  (p c : float) (hist cur : series) :
  history_start (Ticker bad) (PurchaseDate bad) = None
  \/ history_start (Ticker bad) (PurchaseDate bad) = Some []
  \/ history_1d (Ticker bad) = None
  \/ history_1d (Ticker bad) = Some [] ->
  history_start (Ticker good) (PurchaseDate good) = Some ((d0, p) :: hist) ->
  history_1d (Ticker good) = Some (cur ++ [(d1, c)]) ->
  let row := row_of good p c in
  table [bad; good] = [row]
  /\ table [good; bad] = [row]
  /\ get_portfolio_stats (table [bad; good])
     = stats_line (0 + CurrentValue row)
         ((0 + CurrentValue row) - (0 + PurchasePrice row * sShares row))
         (gain_percent [row])
  /\ get_portfolio_stats (table [good; bad])
     = get_portfolio_stats (table [bad; good]).
Proof.
  intros Hbad Hp Hc row.
  assert (Eb : snap bad = None).
  { apply snapshot_of_none. unfold first_close, last_close.
    destruct Hbad as [-> | [-> | [-> | ->]]]; auto. }
  assert (Eg : snap good = Some row).
  { apply snapshot_of_some. exists p, c. unfold first_close, last_close.
    rewrite Hp, Hc, rev_app_distr. auto. }
  assert (T1 : table [bad; good] = [row])
    by (rewrite !table_cons, Eb, Eg; reflexivity).
  assert (T2 : table [good; bad] = [row])
    by (rewrite !table_cons, Eb, Eg; reflexivity).
  rewrite T1, T2. repeat split; reflexivity.
Qed.

(** C8: for a table with at least one row, the invested total adds up,
    row by row, the [PurchasePrice] field times [Shares]; in a table built
    by [get_portfolio_table] that field is the rounded first close, so for
    ten shares bought at 100.005 the invested total is 1000.00 and not the
    raw cost 1000.05.  The percentage is gain / invested * 100 when the
    invested total is above zero (10.00% there), and 0 otherwise (as for
    ten shares bought at 0.001, whose invested total is 0.00). *)
Theorem summary_invested_basis_and_percent (row : snapshot)
  (rest : list snapshot) :
  let rows := row :: rest in
  let invested :=
    fold_left (fun acc r => acc + PurchasePrice r * sShares r)%float rows
      0%float in
  let gain := (total_value rows - invested)%float in
  let percent :=
    if (0 <? invested)%float then (gain / invested * 100)%float
    else 0%float in
  total_invested rows = invested
  /\ total_gain rows = gain
  /\ gain_percent rows = percent
  /\ get_portfolio_stats rows = stats_line (total_value rows) gain percent
  /\ (forall portfolio_list r,
        In r (table portfolio_list) ->
        exists stock p,
          In stock portfolio_list /\ bought_at stock = Some p
          /\ PurchasePrice r = PyFloat.round2 p
          /\ sShares r = Shares stock)
  /\ (let bought :=
        get_portfolio_table (stub_start book_bought) (stub_1d book_now)
          ten_shares in
      total_invested bought = 1000%float
      /\ (100.005 * 10)%float = 1000.05%float
      /\ total_invested bought <> (100.005 * 10)%float
      /\ total_gain bought = (1100.04 - 1000)%float
      /\ gain_percent bought = ((1100.04 - 1000) / 1000 * 100)%float
      /\ get_portfolio_stats bought
         = "Total Portfolio Value: $1,100.04 | Total Gain/Loss: $100.04 (10.00%)"%string)
  /\ (let penny :=
        get_portfolio_table (stub_start book_penny) (stub_1d book_half)
          ten_shares in
      total_invested penny = 0%float
      /\ gain_percent penny = 0%float
      /\ get_portfolio_stats penny
         = "Total Portfolio Value: $5.00 | Total Gain/Loss: $5.00 (0.00%)"%string).
Proof.
  intros rows invested gain percent.
  assert (E : total_invested rows = invested).
  { unfold total_invested, PyFloat.sum, invested.
    generalize 0%float. induction rows as [ | r rs IH]; intros a.
    - reflexivity.
    - cbn. apply IH. }
  split; [exact E | ].
  split; [unfold total_gain; now rewrite E | ].
  split; [unfold gain_percent, total_gain; now rewrite E | ].
  split.
  { unfold rows at 1. cbn [get_portfolio_stats]. fold rows.
    unfold gain_percent, total_gain. now rewrite E. }
  split.
  { intros portfolio_list r H.
    destruct (table_rows _ _ H) as (stock & p & c & Hin & Hp & Hc & ->).
    exists stock, p. cbn. auto. }
  split; cbv zeta.
  - split; [vm_compute; reflexivity | ].
    split; [vm_compute; reflexivity | ].
    split; [float_neq | ].
    repeat split; vm_compute; reflexivity.
  - repeat split; vm_compute; reflexivity.
Qed.

End Table.

(** C10: the summary's gain is the total value minus the invested total,
    each a sum of rounded row fields; it is not the sum of the rows'
    [GainLoss], and for 3 shares bought at 10.004 and now at 10.006 the
    two differ: 0.02 against 0.01. *)
Theorem total_gain_is_not_sum_of_gainloss :
  (forall rows : list snapshot,
      total_gain rows
      = (PyFloat.sum (map CurrentValue rows)
         - PyFloat.sum (map (fun r => PurchasePrice r * sShares r) rows))%float)
  /\ (forall (row : snapshot) (rest : list snapshot),
        get_portfolio_stats (row :: rest)
        = stats_line (total_value (row :: rest)) (total_gain (row :: rest))
            (gain_percent (row :: rest)))
  /\ exists rows : list snapshot,
       rows = get_portfolio_table
                (stub_start [("X"%string, [(1, 10.004%float)])])
                (stub_1d [("X"%string, [(9, 10.006%float)])])
                [mkHolding "X" 3 "2024-01-02"]
       /\ map GainLoss rows = [0.01%float]
       /\ total_gain rows <> PyFloat.sum (map GainLoss rows)
       /\ PyFormat.fixed2 true (total_gain rows) = "0.02"%string
       /\ PyFormat.fixed2 true (PyFloat.sum (map GainLoss rows)) = "0.01"%string.
Proof.
  split; [reflexivity | split; [reflexivity | ]].
  eexists. split; [reflexivity | ].
  split; [vm_compute; reflexivity | ].
  split; [ | split; vm_compute; reflexivity].
  float_neq.
Qed.

(** ** Indexes, lookups and uppercased tickers *)

Lemma insert_date_In (d x : date) (l : list date) :
  In x (insert_date d l) <-> x = d \/ In x l.
Proof.
  induction l as [ | y l IH]; cbn.
  - intuition.
  - destruct (d <? y) eqn:E1; [cbn; intuition | ].
    destruct (d =? y) eqn:E2.
    + apply Z.eqb_eq in E2. subst y. cbn. intuition.
    + cbn. rewrite IH. intuition.
Qed.

Lemma insert_date_sorted (d : date) (l : list date) :
  StronglySorted Z.lt l -> StronglySorted Z.lt (insert_date d l).
Proof.
  induction 1 as [ | y l Hs IH Hy]; cbn.
  - repeat constructor.
  - destruct (d <? y) eqn:E1.
    + apply Z.ltb_lt in E1. constructor; [now constructor | ].
      constructor; [exact E1 | ].
      eapply Forall_impl; [ | exact Hy]. cbn. intros; lia.
    + destruct (d =? y) eqn:E2; [now constructor | ].
      apply Z.ltb_ge in E1. apply Z.eqb_neq in E2.
      constructor; [exact IH | ].
      apply Forall_forall. intros x Hx. apply insert_date_In in Hx.
      destruct Hx as [-> | Hx]; [lia | ].
      rewrite Forall_forall in Hy. now apply Hy.
Qed.

Lemma union_index_In (a b : list date) (x : date) :
  In x (union_index a b) <-> In x a \/ In x b.
Proof.
  unfold union_index. rewrite <- in_app_iff.
  induction (a ++ b) as [ | y l IH]; cbn.
  - intuition.
  - rewrite insert_date_In, IH. intuition.
Qed.

Lemma union_index_sorted (a b : list date) :
  StronglySorted Z.lt (union_index a b).
Proof.
  unfold union_index. induction (a ++ b) as [ | y l IH]; cbn.
  - constructor.
  - now apply insert_date_sorted.
Qed.

Lemma lookup_In {A : Type} (d : date) (l : list (date * A)) (a : A) :
  lookup d l = Some a -> In (d, a) l.
Proof.
  induction l as [ | [e b] l IH]; cbn; [discriminate | ].
  destruct (d =? e) eqn:E.
  - apply Z.eqb_eq in E. subst e. intros H. injection H as ->. now left.
  - intros H. right. now apply IH.
Qed.

Lemma lookup_none {A : Type} (d : date) (l : list (date * A)) (a : A) :
  lookup d l = None -> ~ In (d, a) l.
Proof.
  induction l as [ | [e b] l IH]; cbn; [tauto | ].
  destruct (d =? e) eqn:E; [discriminate | ].
  apply Z.eqb_neq in E. intros H [H' | H'].
  - injection H' as -> _. now elim E.
  - now apply (IH H).
Qed.

Lemma lookup_unique {A : Type} (d : date) (l : list (date * A)) (a : A) :
  NoDup (map fst l) -> In (d, a) l -> lookup d l = Some a.
Proof.
  induction l as [ | [e b] l IH]; cbn; [tauto | ].
  intros Hnd H. inversion Hnd as [ | ? ? Hnotin Hnd']; subst.
  destruct (d =? e) eqn:E.
  - apply Z.eqb_eq in E. subst e. destruct H as [H | H].
    + injection H as ->. reflexivity.
    + elim Hnotin. apply (in_map fst) in H. exact H.
  - apply Z.eqb_neq in E. destruct H as [H | H].
    + injection H as -> _. now elim E.
    + now apply IH.
Qed.

Lemma increasing_NoDup (l : list date) :
  StronglySorted Z.lt l -> NoDup l.
Proof.
  induction 1 as [ | x l _ IH Hx]; constructor; [ | exact IH].
  intros Hin. rewrite Forall_forall in Hx. specialize (Hx x Hin). lia.
Qed.

Lemma upper_ascii_not_lowercase (c : ascii) :
  let n := nat_of_ascii (PyStr.upper_ascii c) in (n < 97 \/ 122 < n)%nat.
Proof.
  destruct c as [[ | ] [ | ] [ | ] [ | ] [ | ] [ | ] [ | ] [ | ]];
    vm_compute; lia.
Qed.

(** An uppercased ticker is neither of the two labels the program itself
    gives to columns. *)
Lemma upper_not_label (t : string) :
  PyStr.upper t <> "Close"%string /\ PyStr.upper t <> "Total"%string.
Proof.
  destruct t as [ | a [ | b t]]; cbn; try (split; discriminate).
  pose proof (upper_ascii_not_lowercase b) as Hb. cbn in Hb.
  split; intros H; injection H as _ H _; rewrite H in Hb;
    vm_compute in Hb; lia.
Qed.

Lemma nan_unique (x : float) : is_nan x = true -> x = nan.
Proof.
  intros H. apply Prim2SF_inj. unfold Prim2SF at 1. rewrite H. reflexivity.
Qed.

(** ** Forward filling against the spec's wording *)

Section Fill.

Variable value : series.
Hypothesis dates_unique : NoDup (map fst value).

Lemma covers_tail (d : date) (rest : list date) :
  StronglySorted Z.lt (d :: rest) -> covers value (d :: rest) ->
  covers value rest.
Proof.
  intros Hs Hc e w Hin. inversion Hs as [ | ? ? _ Hd]; subst.
  rewrite Forall_forall in Hd.
  destruct (Hc e w Hin) as [[<- | H] | H].
  - right. exact Hd.
  - now left.
  - right. intros i Hi. apply H. now right.
Qed.

(** Dates of the series up to [d] are [d] itself or lie before the whole
    index. *)
Lemma split_at_head (d : date) (rest : list date) (e : date) (w : float) :
  StronglySorted Z.lt (d :: rest) -> covers value (d :: rest) ->
  In (e, w) value -> e <= d \/ before rest e ->
  e = d \/ before (d :: rest) e.
Proof.
  intros Hs Hc Hin Hle. inversion Hs as [ | ? ? _ Hd]; subst.
  rewrite Forall_forall in Hd.
  destruct (Hc e w Hin) as [[<- | H] | H]; [now left | | now right].
  exfalso. destruct Hle as [Hle | Hb].
  - specialize (Hd e H). lia.
  - specialize (Hb e H). lia.
Qed.

Lemma fill_step (d : date) (rest : list date) (prev : float) :
  StronglySorted Z.lt (d :: rest) -> covers value (d :: rest) ->
  carried (before (d :: rest)) value prev ->
  let x := fill_cell prev (cell value d) in
  carried (fun e => e <= d) value x /\ carried (before rest) value x.
Proof.
  intros Hs Hc Hprev x.
  assert (Hd : before rest d).
  { inversion Hs as [ | ? ? _ H]; subst. rewrite Forall_forall in H. exact H. }
  assert (Hlt : forall e, before (d :: rest) e -> e < d)
    by (intros e H; apply H; now left).
  assert (Hlt' : forall e, before (d :: rest) e -> before rest e)
    by (intros e H i Hi; apply H; now right).
  destruct (lookup d value) as [w | ] eqn:El.
  - pose proof (lookup_In _ _ _ El) as Hw.
    destruct (is_nan w) eqn:En.
    + (* the cell is NaN: the previous value is carried on *)
      assert (Ex : x = prev) by (unfold x, cell, fill_cell; now rewrite El, En).
      rewrite Ex.
      assert (Hat : forall w', In (d, w') value -> is_nan w' = true).
      { intros w' H'. apply (lookup_unique _ _ _ dates_unique) in H'.
        rewrite El in H'. injection H' as <-. exact En. }
      destruct Hprev as [(Hn & d' & Pd' & Hin & Hmax) | (Hn & Hall)].
      * split; left; (split; [exact Hn | ]); exists d';
          (split; [ | split; [exact Hin | ]]).
        -- specialize (Hlt d' Pd'). lia.
        -- intros e w' He Hw' Hle.
           destruct (split_at_head d rest e w' Hs Hc He (or_introl Hle))
             as [-> | Hb]; [ | now apply (Hmax e w')].
           rewrite (Hat w' He) in Hw'. discriminate Hw'.
        -- now apply Hlt'.
        -- intros e w' He Hw' Hb'.
           destruct (split_at_head d rest e w' Hs Hc He (or_intror Hb'))
             as [-> | Hb]; [ | now apply (Hmax e w')].
           rewrite (Hat w' He) in Hw'. discriminate Hw'.
      * split; right; (split; [exact Hn | ]); intros e w' He Hle.
        -- destruct (split_at_head d rest e w' Hs Hc He (or_introl Hle))
             as [-> | Hb]; [now apply Hat | now apply (Hall e w')].
        -- destruct (split_at_head d rest e w' Hs Hc He (or_intror Hle))
             as [-> | Hb]; [now apply Hat | now apply (Hall e w')].
    + (* the cell has a value: it replaces the previous one *)
      assert (Ex : x = w) by (unfold x, cell, fill_cell; now rewrite El, En).
      rewrite Ex.
      split; left; (split; [exact En | ]); exists d;
        (split; [ | split; [exact Hw | ]]).
      * lia.
      * intros e w' _ _ Hle. exact Hle.
      * exact Hd.
      * intros e w' He _ Hb'.
        destruct (split_at_head d rest e w' Hs Hc He (or_intror Hb'))
          as [-> | Hb]; [lia | ]. specialize (Hlt e Hb). lia.
  - (* the series has no entry at [d] *)
    assert (Ex : x = prev) by (unfold x, cell, fill_cell; now rewrite El).
    rewrite Ex.
    assert (Hat : forall w', ~ In (d, w') value)
      by (intros w'; now apply lookup_none).
    destruct Hprev as [(Hn & d' & Pd' & Hin & Hmax) | (Hn & Hall)].
    + split; left; (split; [exact Hn | ]); exists d';
        (split; [ | split; [exact Hin | ]]).
      * specialize (Hlt d' Pd'). lia.
      * intros e w' He Hw' Hle.
        destruct (split_at_head d rest e w' Hs Hc He (or_introl Hle))
          as [-> | Hb]; [now elim (Hat w') | now apply (Hmax e w')].
      * now apply Hlt'.
      * intros e w' He Hw' Hb'.
        destruct (split_at_head d rest e w' Hs Hc He (or_intror Hb'))
          as [-> | Hb]; [now elim (Hat w') | now apply (Hmax e w')].
    + split; right; (split; [exact Hn | ]); intros e w' He Hle.
      * destruct (split_at_head d rest e w' Hs Hc He (or_introl Hle))
          as [-> | Hb]; [now elim (Hat w') | now apply (Hall e w')].
      * destruct (split_at_head d rest e w' Hs Hc He (or_intror Hle))
          as [-> | Hb]; [now elim (Hat w') | now apply (Hall e w')].
Qed.

(** Before the whole index nothing has been seen: NaN is carried. *)
Lemma carried_initially (idx : list date) :
  (forall e w, In (e, w) value -> In e idx) ->
  carried (before idx) value nan.
Proof.
  intros Hall. right. split; [reflexivity | ].
  intros e w He Hb. specialize (Hb e (Hall e w He)). lia.
Qed.

(** After [fillna(0)] a carried value is the spec's filled value. *)
Lemma carried_filled (d : date) (x : float) :
  carried (fun e => e <= d) value x ->
  filled_at value d (if is_nan x then 0%float else x).
Proof.
  intros [(Hn & d' & Hle & Hin & Hmax) | (Hn & Hall)]; rewrite Hn.
  - left. exists d'. auto.
  - right. auto.
Qed.

End Fill.

(** ** The time series of two holdings *)

Lemma fill_cell_nan (x : float) : fill_cell nan x = x.
Proof.
  unfold fill_cell. destruct (is_nan x) eqn:E; [ | reflexivity].
  symmetry. now apply nan_unique.
Qed.

Lemma ffill_from_dates (prev : list float) (rs : list (date * list float)) :
  map fst (ffill_from prev rs) = map fst rs.
Proof.
  revert prev. induction rs as [ | [d r] rs IH]; intros prev; cbn.
  - reflexivity.
  - now rewrite IH.
Qed.

Lemma scale_dates (prices : series) (k : float) :
  map fst (scale prices k) = map fst prices.
Proof.
  unfold scale. rewrite map_map. reflexivity.
Qed.

Lemma to_frame_lookup (value : series) (name : string) (d : date) :
  lookup d (rows (to_frame value name))
  = option_map (fun v => [v]) (lookup d value).
Proof.
  cbn. induction value as [ | [e v] value IH]; cbn.
  - reflexivity.
  - destruct (d =? e); [reflexivity | exact IH].
Qed.

Lemma join_two (v1 v2 : series) (name : string) :
  name <> "Close"%string ->
  join_outer (to_frame v1 name) "Close" v2
  = Some (mkFrame [name; "Close"%string] (joined_rows v1 v2)).
Proof.
  intros Hn. unfold join_outer.
  assert (E : existsb (String.eqb "Close") (columns (to_frame v1 name)) = false).
  { cbn [columns to_frame existsb]. rewrite orb_false_r.
    apply String.eqb_neq. congruence. }
  rewrite E. f_equal. unfold joined_rows. f_equal.
  assert (Ed : map fst (rows (to_frame v1 name)) = map fst v1)
    by (cbn [rows to_frame]; rewrite map_map; reflexivity).
  rewrite Ed. apply map_ext. intros d. rewrite to_frame_lookup. unfold cell.
  destruct (lookup d v1); reflexivity.
Qed.

Section TwoColumns.

Variables v1 v2 : series.
Hypothesis unique1 : NoDup (map fst v1).
Hypothesis unique2 : NoDup (map fst v2).

Local Abbreviation row_at := (fun d : date => (d, [cell v1 d; cell v2 d])).

Lemma ffill_two (idx : list date) :
  forall p1 p2 : float,
    StronglySorted Z.lt idx -> covers v1 idx -> covers v2 idx ->
    carried (before idx) v1 p1 -> carried (before idx) v2 p2 ->
    forall d r, In (d, r) (ffill_from [p1; p2] (map row_at idx)) ->
    exists x1 x2, r = [x1; x2]
                  /\ carried (fun e => e <= d) v1 x1
                  /\ carried (fun e => e <= d) v2 x2.
Proof.
  induction idx as [ | i rest IH]; intros p1 p2 Hs C1 C2 K1 K2 d r Hin.
  - destruct Hin.
  - destruct (fill_step v1 unique1 i rest p1 Hs C1 K1) as [A1 B1].
    destruct (fill_step v2 unique2 i rest p2 Hs C2 K2) as [A2 B2].
    cbn in Hin. destruct Hin as [Hin | Hin].
    + injection Hin as <- <-. eauto.
    + apply (IH _ _ (proj1 (StronglySorted_inv Hs))
               (covers_tail v1 i rest Hs C1) (covers_tail v2 i rest Hs C2)
               B1 B2 d r Hin).
Qed.

Lemma ffill_joined (d : date) (r : list float) :
  In (d, r) (ffill_from [] (joined_rows v1 v2)) ->
  exists x1 x2, r = [x1; x2]
                /\ carried (fun e => e <= d) v1 x1
                /\ carried (fun e => e <= d) v2 x2.
Proof.
  unfold joined_rows.
  set (idx := union_index (map fst v1) (map fst v2)).
  assert (E : ffill_from [] (map row_at idx)
              = ffill_from [nan; nan] (map row_at idx)).
  { destruct idx as [ | i rest]; [reflexivity | ].
    cbn. now rewrite !fill_cell_nan. }
  rewrite E.
  assert (H1 : forall e w, In (e, w) v1 -> In e idx).
  { intros e w H. apply union_index_In. left.
    apply (in_map fst) in H. exact H. }
  assert (H2 : forall e w, In (e, w) v2 -> In e idx).
  { intros e w H. apply union_index_In. right.
    apply (in_map fst) in H. exact H. }
  apply ffill_two.
  - apply union_index_sorted.
  - intros e w H. left. now apply (H1 e w).
  - intros e w H. left. now apply (H2 e w).
  - now apply carried_initially.
  - now apply carried_initially.
Qed.

End TwoColumns.

Section TimeSeries.

Variable history_start : string -> string -> option series.

Local Abbreviation series_over_time := (portfolio_value_over_time history_start).

(** The frame the loop holds after two holdings whose fetches succeed. *)
Lemma two_steps (h1 h2 : holding) (p1 p2 : series) :
  Ticker h1 <> "Close"%string ->
  history_start (Ticker h1) (PurchaseDate h1) = Some p1 ->
  history_start (Ticker h2) (PurchaseDate h2) = Some p2 ->
  add_to_combined history_start (add_to_combined history_start None h1) h2
  = Some (mkFrame [Ticker h1; "Close"%string]
            (joined_rows (scale p1 (Shares h1)) (scale p2 (Shares h2)))).
Proof.
  intros Hn E1 E2. unfold add_to_combined.
  rewrite E1, E2, (join_two _ _ _ Hn). reflexivity.
Qed.

(** The frame returned for two holdings whose fetches succeed. *)
Lemma two_holdings_frame (h1 h2 : holding) (p1 p2 : series) :
  Ticker h1 <> "Close"%string ->
  history_start (Ticker h1) (PurchaseDate h1) = Some p1 ->
  history_start (Ticker h2) (PurchaseDate h2) = Some p2 ->
  series_over_time [h1; h2]
  = assign_row_sums
      (fillna0 (ffill (mkFrame [Ticker h1; "Close"%string]
                         (joined_rows (scale p1 (Shares h1))
                                      (scale p2 (Shares h2))))))
      "Total".
Proof.
  intros Hn E1 E2. unfold portfolio_value_over_time. cbn [fold_left].
  rewrite (two_steps h1 h2 p1 p2 Hn E1 E2). reflexivity.
Qed.

(** C3: for two holdings whose histories are fetched, each in increasing
    date order, the first holding with a ticker uppercased as
    [update_portfolio] stores it, the frame has the
    sorted union of the two histories' dates as its index; on every date
    the two holding cells are the series' values filled from the most
    recent earlier date (0 before the series begins), and [Total] is
    their sum, added from +0.0 as pandas adds a row: the float [c1 + c2],
    but +0.0 when both cells are -0.0. *)
Theorem two_holdings_time_series (h1 h2 : holding) (p1 p2 : series) :
  (exists t, Ticker h1 = PyStr.upper t) ->
  history_start (Ticker h1) (PurchaseDate h1) = Some p1 ->
  history_start (Ticker h2) (PurchaseDate h2) = Some p2 ->
  StronglySorted Z.lt (map fst p1) -> StronglySorted Z.lt (map fst p2) ->
  let df := series_over_time [h1; h2] in
  columns df = [Ticker h1; "Close"%string; "Total"%string]
  /\ StronglySorted Z.lt (map fst (rows df))
  /\ (forall d, In d (map fst (rows df))
                <-> In d (map fst p1) \/ In d (map fst p2))
  /\ (forall d r, In (d, r) (rows df) ->
        exists c1 c2,
          r = [c1; c2; (0 + c1 + c2)%float]
          /\ ((0 + c1 + c2)%float = (c1 + c2)%float
              \/ (c1 = neg_zero /\ c2 = neg_zero
                  /\ (0 + c1 + c2)%float = 0%float))
          /\ filled_at (scale p1 (Shares h1)) d c1
          /\ filled_at (scale p2 (Shares h2)) d c2).
Proof.
  intros [t Ht] E1 E2 S1 S2 df.
  pose proof (increasing_NoDup _ S1) as U1.
  pose proof (increasing_NoDup _ S2) as U2.
  destruct (upper_not_label t) as [NC NT]. rewrite <- Ht in NC, NT.
  assert (NT' : String.eqb (Ticker h1) "Total" = false)
    by now apply String.eqb_neq.
  set (v1 := scale p1 (Shares h1)). set (v2 := scale p2 (Shares h2)).
  assert (Edf : df = assign_row_sums
                       (fillna0 (ffill (mkFrame [Ticker h1; "Close"%string]
                                          (joined_rows v1 v2)))) "Total")
    by now apply two_holdings_frame.
  assert (Edates : map fst (rows df)
                   = union_index (map fst p1) (map fst p2)).
  { rewrite Edf. cbn [rows assign_row_sums fillna0 ffill columns].
    rewrite !map_map. cbn [fst].
    change (map (fun x => fst x) ?l) with (map fst l).
    rewrite ffill_from_dates. unfold joined_rows. rewrite map_map. cbn [fst].
    rewrite map_id. unfold v1, v2. now rewrite !scale_dates. }
  split; [ | split; [ | split]].
  - rewrite Edf. cbn [columns assign_row_sums fillna0 ffill existsb].
    rewrite String.eqb_sym, NT'. reflexivity.
  - rewrite Edates. apply union_index_sorted.
  - intros d. rewrite Edates. apply union_index_In.
  - intros d r Hin. rewrite Edf in Hin.
    cbn [rows assign_row_sums fillna0 ffill columns] in Hin.
    apply in_map_iff in Hin. destruct Hin as ([d0 r0] & Hr & Hin).
    apply in_map_iff in Hin. destruct Hin as ([d1 r1] & Hr0 & Hin).
    cbn [fst snd] in Hr, Hr0. injection Hr0 as <- <-. injection Hr as <- <-.
    assert (U1' : NoDup (map fst v1)) by (unfold v1; now rewrite scale_dates).
    assert (U2' : NoDup (map fst v2)) by (unfold v2; now rewrite scale_dates).
    destruct (ffill_joined v1 v2 U1' U2' d1 r1 Hin) as (x1 & x2 & -> & K1 & K2).
    exists (if is_nan x1 then 0%float else x1),
           (if is_nan x2 then 0%float else x2).
    split; [ | split; [ | split]].
    + unfold sum_row. cbn [map set_cell fold_left]. rewrite NT'. reflexivity.
    + apply sum_of_two.
    + now apply carried_filled.
    + now apply carried_filled.
Qed.

(** Once the frame has its "Close" column, every later holding is lost:
    its join raises on the repeated label, and the handler moves on. *)
Lemma close_column_blocks_join (rest : list holding) (c : DataFrame) :
  existsb (String.eqb "Close") (columns c) = true ->
  fold_left (add_to_combined history_start) rest (Some c) = Some c.
Proof.
  intros H. induction rest as [ | row rest IH]; [reflexivity | ].
  cbn [fold_left]. unfold add_to_combined at 2.
  destruct (history_start (Ticker row) (PurchaseDate row)); [ | exact IH].
  unfold join_outer. rewrite H. exact IH.
Qed.

Lemma later_holdings_dropped (h1 h2 : holding) (rest : list holding)
  (p1 p2 : series) :
  Ticker h1 <> "Close"%string ->
  history_start (Ticker h1) (PurchaseDate h1) = Some p1 ->
  history_start (Ticker h2) (PurchaseDate h2) = Some p2 ->
  series_over_time (h1 :: h2 :: rest) = series_over_time [h1; h2].
Proof.
  intros Hn E1 E2. unfold portfolio_value_over_time. cbn [fold_left].
  rewrite (two_steps h1 h2 p1 p2 Hn E1 E2).
  rewrite close_column_blocks_join; [reflexivity | ].
  cbn [columns existsb]. rewrite String.eqb_refl. apply orb_true_r.
Qed.

End TimeSeries.

(** * Concrete runs *)

(** ** Three holdings, all fetched *)

(** C1, where the code departs from it: with three holdings whose fetches
    all succeed, the third never reaches the frame.  Its date 5 is not on
    the axis, its values 100 and 200 are in no total, and the frame is the
    one of the first two holdings alone. *)
Theorem third_holding_missing_from_total :
  Forall (fun h => exists p, stub_start book3 (Ticker h) (PurchaseDate h) = Some p)
    three_holdings
  /\ portfolio_value_over_time (stub_start book3) three_holdings
     = mkFrame ["AAA"%string; "Close"%string; "Total"%string]
         [(1, [20; 0; 20]%float); (2, [22; 5; 27]%float);
          (3, [22; 6; 28]%float); (4, [24; 6; 30]%float)]
  /\ portfolio_value_over_time (stub_start book3) three_holdings
     = portfolio_value_over_time (stub_start book3) (firstn 2 three_holdings).
Proof.
  split; [ | split].
  - repeat constructor; eexists; reflexivity.
  - vm_compute. reflexivity.
  - vm_compute. reflexivity.
Qed.

(** ** Rounding in a table row *)

(** C2 as stated fails: bought at 100.005 and now at 110.004, ten shares
    show the prices 100 and 110, but a value of 1100.04 and a gain of
    99.99, where the rounded prices would give 1100 and 100. *)
Lemma snapshot_not_from_rounded_prices :
  exists row : snapshot,
    get_portfolio_table (stub_start book_bought) (stub_1d book_now)
      [mkHolding "AAPL" 10 "2023-01-03"] = [row]
    /\ PurchasePrice row = 100%float /\ CurrentPrice row = 110%float
    /\ CurrentValue row = 1100.04%float /\ GainLoss row = 99.99%float
    /\ (sShares row * CurrentPrice row)%float = 1100%float
    /\ ((CurrentPrice row - PurchasePrice row) * sShares row)%float = 100%float
    /\ CurrentValue row <> (sShares row * CurrentPrice row)%float
    /\ GainLoss row
       <> ((CurrentPrice row - PurchasePrice row) * sShares row)%float.
Proof.
  eexists. split; [vm_compute; reflexivity | ].
  cbn [PurchasePrice CurrentPrice CurrentValue GainLoss sShares].
  repeat (split; [vm_compute; reflexivity | ]).
  split; float_neq.
Qed.

Lemma snapshot_rounds_after_deriving_witness :
  let start := stub_start book_bought in
  let cur := stub_1d book_now in
  let stock := mkHolding "AAPL" 10 "2023-01-03" in
  let row := mkSnapshot "AAPL" 10 "2023-01-03" 100 110 1100.04 99.99 in
  In row (get_portfolio_table start cur [stock])
  /\ exists st p c,
       In st [stock]
       /\ first_close start st = Some p /\ last_close cur st = Some c
       /\ sShares row = Shares st
       /\ PurchasePrice row = PyFloat.round2 p
       /\ CurrentPrice row = PyFloat.round2 c
       /\ CurrentValue row = PyFloat.round2 (Shares st * c)
       /\ GainLoss row = PyFloat.round2 ((c - p) * Shares st).
Proof.
  intros start cur stock row.
  assert (H : In row (get_portfolio_table start cur [stock]))
    by (vm_compute; left; reflexivity).
  split; [exact H | ].
  exact (snapshot_rounds_after_deriving start cur [stock] row H).
Defined.

(** ** Witnesses of the state transition *)


Lemma add_holding_missing_field_witness :
  let old := [mkHolding "MSFT" 2 "2022-05-02"] in
  let new := new_store (update_portfolio (stub_start []) (stub_1d [])
                          (Some 1) (Some "aapl"%string) (Some 10%float)
                          (Some ""%string) (Some old)) in
  new = old /\ List.length new = 1%nat.
Proof.
  refine (add_holding_missing_field (stub_start []) (stub_1d [])
            (Some 1) (Some "aapl"%string) (Some 10%float) (Some ""%string)
            (Some [mkHolding "MSFT" 2 "2022-05-02"]) _).
  right. right. reflexivity.
Defined.

Lemma zero_shares_skipped_negative_appended_witness :
  let old := [mkHolding "MSFT" 2 "2022-05-02"] in
  new_store (update_portfolio (stub_start []) (stub_1d [])
               (Some 1) (Some "aapl"%string) (Some 0%float)
               (Some "2023-01-03"%string) (Some old)) = old
  /\ exists r,
       new_store (update_portfolio (stub_start []) (stub_1d [])
                    (Some 1) (Some "aapl"%string) (Some (-5)%float)
                    (Some "2023-01-03"%string) (Some old))
       = old ++ [r]
       /\ Shares r = (-5)%float /\ PurchaseDate r = "2023-01-03"%string
       /\ Ticker r = "AAPL"%string.
Proof.
  intros old.
  assert (Hn : 1 <> 0) by lia.
  assert (Ht : "aapl"%string <> ""%string) by discriminate.
  assert (Hd : "2023-01-03"%string <> ""%string) by discriminate.
  destruct (zero_shares_skipped_negative_appended (stub_start [])
              (stub_1d []) (Some 1) (Some "aapl"%string)
              (Some "2023-01-03"%string) (Some old)
              1 "aapl" "2023-01-03" (-5) Hn Ht Hd eq_refl)
    as (Hzero & r & Hnew & Hs & Hdate & Hup).
  split; [exact Hzero | ].
  exists r. repeat split; try assumption.
  exact (Hup eq_refl).
Defined.

(** ** Witnesses of the valuation *)

Lemma failing_holding_dropped_witness :
  let bad := mkHolding "NOPE" 1 "2023-01-03" in
  let good := mkHolding "AAPL" 10 "2023-01-03" in
  let row := mkSnapshot "AAPL" 10 "2023-01-03" 125 150 1500 250 in
  get_portfolio_table (stub_start book2) (stub_1d book2) [bad; good] = [row]
  /\ get_portfolio_stats
       (get_portfolio_table (stub_start book2) (stub_1d book2) [bad; good])
     = "Total Portfolio Value: $1,500.00 | Total Gain/Loss: $250.00 (20.00%)"%string.
Proof.
  intros bad good row.
  pose proof (failing_holding_dropped (stub_start book2) (stub_1d book2)
                bad good 1 3 125 150 [(2, 130%float); (3, 150%float)]
                [(1, 125%float); (2, 130%float)]
                (or_introl eq_refl) eq_refl eq_refl) as H.
  destruct H as (T1 & _ & S1 & _).
  split.
  - exact T1.
  - rewrite S1. vm_compute. reflexivity.
Defined.

Lemma two_holdings_time_series_witness :
  let h1 := mkHolding "AAA" 2 "2024-01-01" in
  let h2 := mkHolding "BBB" 1 "2024-01-02" in
  let df := portfolio_value_over_time (stub_start book3) [h1; h2] in
  map fst (rows df) = [1; 2; 3; 4]
  /\ forall d r, In (d, r) (rows df) ->
       exists c1 c2,
         r = [c1; c2; (0 + c1 + c2)%float]
         /\ ((0 + c1 + c2)%float = (c1 + c2)%float
             \/ (c1 = neg_zero /\ c2 = neg_zero
                 /\ (0 + c1 + c2)%float = 0%float))
         /\ filled_at [(1, 20%float); (2, 22%float); (4, 24%float)] d c1
         /\ filled_at [(2, 5%float); (3, 6%float)] d c2.
Proof.
  intros h1 h2 df.
  assert (U1 : StronglySorted Z.lt
                 (map fst [(1, 10%float); (2, 11%float); (4, 12%float)])).
  { repeat constructor; cbn; lia. }
  assert (U2 : StronglySorted Z.lt (map fst [(2, 5%float); (3, 6%float)])).
  { repeat constructor; cbn; lia. }
  pose proof (two_holdings_time_series (stub_start book3) h1 h2 _ _
                (ex_intro _ "aaa"%string eq_refl) eq_refl eq_refl U1 U2) as H.
  destruct H as (_ & _ & _ & H).
  split; [vm_compute; reflexivity | exact H].
Defined.

(** * Further properties *)

(** ** Which holdings reach the time series *)

Section Reach.

Variable history_start : string -> string -> option series.

Local Abbreviation step := (add_to_combined history_start).
Local Abbreviation over_time := (portfolio_value_over_time history_start).
Local Abbreviation got := (fetched history_start).

(** The empty list needs no case of its own: the loop leaves [None]. *)
Lemma over_time_fold (hs : list holding) :
  over_time hs
  = match fold_left step hs None with
    | None => empty_frame
    | Some combined => assign_row_sums (fillna0 (ffill combined)) "Total"
    end.
Proof.
  destruct hs; reflexivity.
Qed.

Lemma fold_skips_failures (hs : list holding) (c : option DataFrame) :
  fold_left step hs c = fold_left step (filter got hs) c.
Proof.
  revert c. induction hs as [ | h hs IH]; intros c; [reflexivity | ].
  cbn [fold_left filter]. unfold fetched at 1.
  destruct (history_start (Ticker h) (PurchaseDate h)) eqn:E.
  - cbn [fold_left]. apply IH.
  - rewrite <- IH. f_equal. unfold add_to_combined. now rewrite E.
Qed.

(** X1: a holding whose history fetch raises changes nothing: the frame
    is the one of the holdings whose fetch succeeds, in their order. *)
Theorem failed_fetches_skipped (hs : list holding) :
  over_time hs = over_time (filter got hs).
Proof.
  rewrite !over_time_fold, <- fold_skips_failures. reflexivity.
Qed.

Lemma fetched_some (h : holding) :
  got h = true ->
  exists p, history_start (Ticker h) (PurchaseDate h) = Some p.
Proof.
  unfold fetched. destruct (history_start (Ticker h) (PurchaseDate h)) as [p | ].
  - intros _. now exists p.
  - discriminate.
Qed.

(** The frame the loop ends with once two holdings are fetched: the join
    of the first two, whatever follows. *)
Lemma fold_first_two (hs rest : list holding) (a b : holding)
  (pa pb : series) :
  Forall (fun h => Ticker h <> "Close"%string) hs ->
  filter got hs = a :: b :: rest ->
  history_start (Ticker a) (PurchaseDate a) = Some pa ->
  history_start (Ticker b) (PurchaseDate b) = Some pb ->
  fold_left step hs None
  = Some (mkFrame [Ticker a; "Close"%string]
            (joined_rows (scale pa (Shares a)) (scale pb (Shares b)))).
Proof.
  intros Hn Hf Ea Eb.
  assert (Na : Ticker a <> "Close"%string).
  { rewrite Forall_forall in Hn. apply Hn.
    assert (Hin : In a (filter got hs)) by (rewrite Hf; now left).
    apply filter_In in Hin. tauto. }
  rewrite fold_skips_failures, Hf. cbn [fold_left].
  rewrite (two_steps history_start a b pa pb Na Ea Eb).
  apply close_column_blocks_join.
  cbn [columns existsb]. rewrite String.eqb_refl. apply orb_true_r.
Qed.

(** X2: when no ticker is the label "Close", only the first two holdings
    whose fetch succeeds ever contribute, however long the list is. *)
Theorem only_first_two_contribute (hs : list holding) :
  Forall (fun h => Ticker h <> "Close"%string) hs ->
  over_time hs = over_time (firstn 2 (filter got hs)).
Proof.
  intros Hn. rewrite !over_time_fold.
  destruct (filter got hs) as [ | a [ | b rest]] eqn:Hf.
  - now rewrite fold_skips_failures, Hf.
  - now rewrite fold_skips_failures, Hf.
  - assert (Ga : got a = true /\ got b = true).
    { assert (Ha : In a (filter got hs)) by (rewrite Hf; now left).
      assert (Hb : In b (filter got hs)) by (rewrite Hf; right; now left).
      apply filter_In in Ha, Hb. tauto. }
    destruct Ga as [Ga Gb].
    destruct (fetched_some a Ga) as [pa Ea].
    destruct (fetched_some b Gb) as [pb Eb].
    rewrite (fold_first_two hs rest a b pa pb Hn Hf Ea Eb).
    cbn [firstn fold_left].
    assert (Na : Ticker a <> "Close"%string).
    { rewrite Forall_forall in Hn. apply Hn.
      assert (Hin : In a (filter got hs)) by (rewrite Hf; now left).
      apply filter_In in Hin. tauto. }
    now rewrite (two_steps history_start a b pa pb Na Ea Eb).
Qed.

Lemma empty_without_rows (df : DataFrame) :
  rows df = [] -> empty df = true.
Proof.
  intros H. unfold empty. rewrite H. destruct (columns df); reflexivity.
Qed.

(** Histories without rows leave a frame without rows. *)
Lemma fold_without_rows (hs : list holding) (c : option DataFrame) :
  Forall (fun h => history_start (Ticker h) (PurchaseDate h) = None
                   \/ history_start (Ticker h) (PurchaseDate h) = Some []) hs ->
  match c with None => True | Some f => rows f = [] end ->
  match fold_left step hs c with None => True | Some f => rows f = [] end.
Proof.
  intros Hall. revert c. induction Hall as [ | h hs Hh _ IH]; intros c Hc.
  - exact Hc.
  - cbn [fold_left]. apply IH. unfold add_to_combined.
    destruct Hh as [-> | ->]; [exact Hc | ].
    destruct c as [f | ]; [ | reflexivity].
    unfold join_outer.
    destruct (existsb (String.eqb "Close") (columns f)); [exact Hc | ].
    cbn [rows]. rewrite Hc. reflexivity.
Qed.

(** X3: when every history fetch raises or comes back without rows, the
    frame is empty in the sense of [df.empty], as for an empty list. *)
Theorem no_prices_empty_frame (hs : list holding) :
  Forall (fun h => history_start (Ticker h) (PurchaseDate h) = None
                   \/ history_start (Ticker h) (PurchaseDate h) = Some []) hs ->
  empty (over_time hs) = true.
Proof.
  intros Hall. rewrite over_time_fold.
  pose proof (fold_without_rows hs None Hall I) as H.
  destruct (fold_left step hs None) as [f | ]; [ | reflexivity].
  apply empty_without_rows.
  cbn [rows assign_row_sums fillna0 ffill]. rewrite H. reflexivity.
Qed.

End Reach.

(** ** The shape of the frame and its Total column *)

Lemma fill_row_length (prev r : list float) :
  List.length (fill_row prev r) = List.length r.
Proof.
  revert prev. induction r as [ | x r IH]; intros prev; [reflexivity | ].
  destruct prev as [ | p prev]; cbn; now rewrite IH.
Qed.

Lemma ffill_from_lengths (n : nat) (rs : list (date * list float)) :
  forall prev,
    Forall (fun dr => List.length (snd dr) = n) rs ->
    Forall (fun dr => List.length (snd dr) = n) (ffill_from prev rs).
Proof.
  induction rs as [ | [d r] rs IH]; intros prev H; [constructor | ].
  inversion H as [ | ? ? Hr Hrs]; subst. cbn [ffill_from].
  constructor.
  - cbn [snd] in *. now rewrite fill_row_length.
  - now apply IH.
Qed.

Lemma set_cell_length (name : string) (v : float) (cols : list string) :
  forall r,
    List.length r = List.length cols ->
    List.length (set_cell cols name r v)
    = List.length (if existsb (String.eqb name) cols then cols
                   else cols ++ [name]).
Proof.
  induction cols as [ | c cols IH]; intros r Hr.
  - destruct r; [reflexivity | discriminate Hr].
  - destruct r as [ | x r]; [discriminate Hr | ].
    injection Hr as Hr. cbn [set_cell existsb].
    rewrite (String.eqb_sym name c).
    destruct (String.eqb c name); cbn [orb].
    + cbn. now rewrite Hr.
    + cbn [List.length]. rewrite (IH r Hr).
      destruct (existsb (String.eqb name) cols); reflexivity.
Qed.

Lemma set_cell_append (name : string) (v : float) (cols : list string) :
  forall r,
    List.length r = List.length cols ->
    existsb (String.eqb name) cols = false ->
    set_cell cols name r v = r ++ [v].
Proof.
  induction cols as [ | c cols IH]; intros r Hr Hn.
  - destruct r; [reflexivity | discriminate Hr].
  - destruct r as [ | x r]; [discriminate Hr | ].
    injection Hr as Hr. cbn [existsb] in Hn.
    apply orb_false_iff in Hn. destruct Hn as [Hc Hn].
    cbn [set_cell]. rewrite (String.eqb_sym c name), Hc.
    cbn. now rewrite (IH r Hr Hn).
Qed.

(** Where the assigned column sits, and that a row holds the assigned
    value there. *)
Lemma set_cell_position (name : string) (cols : list string) :
  exists i,
    position name (if existsb (String.eqb name) cols then cols
                   else cols ++ [name]) = Some i
    /\ forall r v, List.length r = List.length cols ->
                   nth i (set_cell cols name r v) nan = v.
Proof.
  induction cols as [ | c cols (i & Hi & Hnth)].
  - exists 0%nat. split.
    + cbn. now rewrite String.eqb_refl.
    + intros [ | x r] v Hr; [reflexivity | discriminate Hr].
  - cbn [existsb]. rewrite (String.eqb_sym name c).
    destruct (String.eqb c name) eqn:E; cbn [orb].
    + exists 0%nat. split.
      * cbn [position]. now rewrite E.
      * intros [ | x r] v Hr; [discriminate Hr | ].
        cbn [set_cell]. now rewrite E.
    + exists (S i). split.
      * assert (Ec : (if existsb (String.eqb name) cols then c :: cols
                      else (c :: cols) ++ [name])
                     = c :: (if existsb (String.eqb name) cols then cols
                             else cols ++ [name]))
          by (destruct (existsb (String.eqb name) cols); reflexivity).
        rewrite Ec. cbn [position]. rewrite E, Hi. reflexivity.
      * intros [ | x r] v Hr; [discriminate Hr | ].
        injection Hr as Hr. cbn [set_cell]. rewrite E. cbn [nth].
        now apply Hnth.
Qed.

Lemma rectangular_to_frame (value : series) (name : string) :
  rectangular (to_frame value name).
Proof.
  unfold rectangular. cbn [rows columns to_frame].
  apply Forall_forall. intros dr Hin. apply in_map_iff in Hin.
  destruct Hin as (dv & <- & _). reflexivity.
Qed.

Lemma rectangular_join (c c' : DataFrame) (name : string) (value : series) :
  join_outer c name value = Some c' -> rectangular c -> rectangular c'.
Proof.
  unfold join_outer.
  destruct (existsb (String.eqb name) (columns c)); [discriminate | ].
  intros H Hc. injection H as <-. unfold rectangular in *.
  cbn [rows columns]. apply Forall_forall. intros dr Hin.
  apply in_map_iff in Hin. destruct Hin as (d & <- & _). cbn [snd].
  rewrite !length_app. cbn [List.length]. f_equal.
  destruct (lookup d (rows c)) as [r | ] eqn:E.
  - apply lookup_In in E. rewrite Forall_forall in Hc. apply (Hc (d, r) E).
  - apply repeat_length.
Qed.

Lemma rectangular_filled (c : DataFrame) :
  rectangular c -> rectangular (fillna0 (ffill c)).
Proof.
  unfold rectangular. cbn [rows columns fillna0 ffill]. intros H.
  apply Forall_forall. intros dr Hin. apply in_map_iff in Hin.
  destruct Hin as (dr' & <- & Hin). cbn [snd]. rewrite length_map.
  pose proof (ffill_from_lengths _ _ [] H) as H'.
  rewrite Forall_forall in H'. now apply H'.
Qed.

Lemma rectangular_assigned (df : DataFrame) (name : string) :
  rectangular df -> rectangular (assign_row_sums df name).
Proof.
  unfold rectangular. cbn [rows columns assign_row_sums]. intros H.
  apply Forall_forall. intros dr Hin. apply in_map_iff in Hin.
  destruct Hin as (dr' & <- & Hin). cbn [snd].
  rewrite Forall_forall in H. apply set_cell_length. now apply H.
Qed.

(** Reading back the column that [assign_row_sums] wrote gives the row
    sums, whether the label was new or replaced a column. *)
Lemma assigned_column (df : DataFrame) (name : string) :
  rectangular df ->
  column (assign_row_sums df name) name
  = Some (map (fun dr => (fst dr, sum_row (snd dr))) (rows df)).
Proof.
  intros H. unfold column. cbn [columns rows assign_row_sums].
  destruct (set_cell_position name (columns df)) as (i & -> & Hnth).
  f_equal. rewrite map_map. apply map_ext_in. intros dr Hin. cbn [fst snd].
  f_equal. apply Hnth. unfold rectangular in H. rewrite Forall_forall in H.
  now apply H.
Qed.

Section Shape.

Variable history_start : string -> string -> option series.

Local Abbreviation step := (add_to_combined history_start).
Local Abbreviation over_time := (portfolio_value_over_time history_start).

Lemma fold_rectangular (hs : list holding) (c : option DataFrame) :
  match c with None => True | Some f => rectangular f end ->
  match fold_left step hs c with None => True | Some f => rectangular f end.
Proof.
  revert c. induction hs as [ | h hs IH]; intros c Hc; [exact Hc | ].
  cbn [fold_left]. apply IH. unfold add_to_combined.
  destruct (history_start (Ticker h) (PurchaseDate h)) as [p | ]; [ | exact Hc].
  destruct c as [f | ]; [ | apply rectangular_to_frame].
  destruct (join_outer f "Close" (scale p (Shares h))) as [f' | ] eqn:E;
    [ | exact Hc].
  now apply (rectangular_join f f' _ _ E).
Qed.

(** Whatever the holdings and the provider, every row of the returned
    frame has exactly one cell per column. *)
Lemma frame_is_rectangular (hs : list holding) :
  rectangular (over_time hs).
Proof.
  rewrite over_time_fold.
  pose proof (fold_rectangular hs None I) as H.
  destruct (fold_left step hs None) as [f | ]; [ | constructor].
  now apply rectangular_assigned, rectangular_filled.
Qed.

(** X4: the Total column read back from the returned frame is, date by
    date, the left-to-right sum of the filled cells of the frame the loop
    built; this also holds when a ticker is itself "Total", whose column
    is then overwritten. *)
Theorem total_column_is_row_sums (hs : list holding) (c : DataFrame) :
  fold_left step hs None = Some c ->
  column (over_time hs) "Total"
  = Some (map (fun dr => (fst dr, sum_row (snd dr)))
              (rows (fillna0 (ffill c)))).
Proof.
  intros E. rewrite over_time_fold, E.
  apply assigned_column, rectangular_filled.
  pose proof (fold_rectangular hs None I) as H. now rewrite E in H.
Qed.

Lemma existsb_absent (name : string) (cols : list string) :
  ~ In name cols -> existsb (String.eqb name) cols = false.
Proof.
  intros H. destruct (existsb (String.eqb name) cols) eqn:E; [ | reflexivity].
  apply existsb_exists in E. destruct E as (c & Hin & Ec).
  apply String.eqb_eq in Ec. subst c. now elim H.
Qed.

Lemma fold_labels (hs : list holding) (c : option DataFrame) :
  Forall (fun h => Ticker h <> "Total"%string) hs ->
  match c with None => True | Some f => ~ In "Total"%string (columns f) end ->
  match fold_left step hs c with
  | None => True
  | Some f => ~ In "Total"%string (columns f)
  end.
Proof.
  intros Hall. revert c. induction Hall as [ | h hs Hh _ IH]; intros c Hc;
    [exact Hc | ].
  cbn [fold_left]. apply IH. unfold add_to_combined.
  destruct (history_start (Ticker h) (PurchaseDate h)) as [p | ]; [ | exact Hc].
  destruct c as [f | ].
  - unfold join_outer.
    destruct (existsb (String.eqb "Close") (columns f)); [exact Hc | ].
    cbn [columns]. intros Hin. apply in_app_iff in Hin.
    destruct Hin as [Hin | [Hin | []]]; [now apply Hc | discriminate Hin].
  - cbn [columns to_frame]. intros [Hin | []]. now apply Hh.
Qed.

(** X5: when no ticker is the label "Total", every row of the returned
    frame is the holdings' cells, none of them missing, followed by their
    sum; this holds for any number of holdings. *)
Theorem rows_end_with_their_sum (hs : list holding) (d : date)
  (r : list float) :
  Forall (fun h => Ticker h <> "Total"%string) hs ->
  In (d, r) (rows (over_time hs)) ->
  exists cells,
    r = cells ++ [sum_row cells]
    /\ Forall (fun x => is_nan x = false) cells
    /\ S (List.length cells) = List.length (columns (over_time hs)).
Proof.
  intros Hall. rewrite over_time_fold.
  pose proof (fold_rectangular hs None I) as Hrect.
  pose proof (fold_labels hs None Hall I) as Hlab.
  destruct (fold_left step hs None) as [f | ]; [ | intros []].
  apply existsb_absent in Hlab.
  pose proof (rectangular_filled f Hrect) as Hfilled.
  cbn [rows columns assign_row_sums]. intros Hin.
  apply in_map_iff in Hin. destruct Hin as ([d0 r0] & Heq & Hin).
  cbn [fst snd] in Heq. injection Heq as <- <-.
  unfold rectangular in Hfilled. rewrite Forall_forall in Hfilled.
  pose proof (Hfilled _ Hin) as Hlen. cbn [snd] in Hlen.
  exists r0. split; [ | split].
  - apply set_cell_append; assumption.
  - cbn [rows fillna0] in Hin. apply in_map_iff in Hin.
    destruct Hin as ([d1 r1] & Heq & _). cbn [fst snd] in Heq.
    injection Heq as _ <-. apply Forall_forall. intros x Hx.
    apply in_map_iff in Hx. destruct Hx as (y & <- & _).
    destruct (is_nan y) eqn:Ey; [reflexivity | exact Ey].
  - cbn [columns fillna0 ffill] in *. rewrite Hlab, length_app, Hlen.
    cbn. lia.
Qed.

End Shape.

(** ** One holding *)

Lemma ffill_single_column (value : series) :
  Forall (fun dv => is_nan (snd dv) = false) value ->
  forall prev,
    ffill_from prev (map (fun dv => (fst dv, [snd dv])) value)
    = map (fun dv => (fst dv, [snd dv])) value.
Proof.
  induction 1 as [ | [d x] value Hx _ IH]; intros prev; [reflexivity | ].
  cbn [map ffill_from fst snd] in *.
  assert (E : fill_row prev [x] = [x]).
  { destruct prev as [ | p prev]; [reflexivity | ].
    cbn. unfold fill_cell. now rewrite Hx. }
  rewrite E, IH. reflexivity.
Qed.

Section OneHolding.

Variable history_start : string -> string -> option series.

(** X6: for a single holding whose history has a price on every row, the
    frame has the history's dates in the provider's order, the holding's
    value under its ticker, and as Total that value added to +0.0 (the
    same number; +0.0 where the value is -0.0). *)
Theorem single_holding_series (h : holding) (p : series) :
  Ticker h <> "Total"%string ->
  history_start (Ticker h) (PurchaseDate h) = Some p ->
  Forall (fun dv => is_nan (snd dv) = false) (scale p (Shares h)) ->
  portfolio_value_over_time history_start [h]
  = mkFrame [Ticker h; "Total"%string]
      (map (fun dp => (fst dp, [(snd dp * Shares h)%float;
                                (0 + snd dp * Shares h)%float])) p).
Proof.
  intros Hn E Hv. unfold portfolio_value_over_time. cbn [fold_left].
  unfold add_to_combined. rewrite E.
  unfold assign_row_sums, fillna0, ffill. cbn [columns rows to_frame].
  rewrite (ffill_single_column _ Hv).
  f_equal.
  - cbn [existsb]. rewrite orb_false_r.
    assert (Ht : String.eqb "Total" (Ticker h) = false)
      by (apply String.eqb_neq; congruence).
    now rewrite Ht.
  - unfold scale in *. rewrite !map_map. apply map_ext_in.
    intros [d x] Hin. cbn [fst snd map].
    rewrite Forall_forall in Hv.
    assert (Hx : is_nan (x * Shares h) = false).
    { apply (Hv (d, (x * Shares h)%float)).
      apply in_map_iff. exists (d, x). auto. }
    rewrite Hx. unfold sum_row. cbn [set_cell fold_left].
    assert (Ht : String.eqb (Ticker h) "Total" = false)
      by now apply String.eqb_neq.
    now rewrite Ht.
Qed.

End OneHolding.

Lemma single_holding_series_witness :
  portfolio_value_over_time (stub_start book2)
    [mkHolding "AAPL" 10 "2023-01-03"]
  = mkFrame ["AAPL"%string; "Total"%string]
      [(1, [1250; 1250]%float); (2, [1300; 1300]%float);
       (3, [1500; 1500]%float)].
Proof.
  refine (single_holding_series (stub_start book2)
            (mkHolding "AAPL" 10 "2023-01-03")
            [(1, 125%float); (2, 130%float); (3, 150%float)] _ _ _).
  - discriminate.
  - reflexivity.
  - repeat constructor.
Defined.

(** ** What the callback returns beside the store *)

Section Outputs.

Variable history_start : string -> string -> option series.
Variable history_1d : string -> option series.

Local Abbreviation run := (update_portfolio history_start history_1d).
Local Abbreviation over_time := (portfolio_value_over_time history_start).

(** X7: the figure is either the one without data, exactly when the frame
    of the new store is empty, or it is titled "Portfolio Value Over Time"
    and plots the frame's Total column, one point per date of the frame and
    at least one point; the column is never missing. *)
Theorem chart_plots_total (n_clicks : option Z) (ticker : option string)
  (shares : option float) (date : option string)
  (data : option (list holding)) :
  let r := run n_clicks ticker shares date data in
  let df := over_time (new_store r) in
  (empty df = true /\ figure_of r = no_stocks_figure)
  \/ (empty df = false
      /\ exists tr,
           figure_of r = mkFigure "Portfolio Value Over Time" (Some tr)
           /\ column df "Total" = Some tr
           /\ map fst tr = map fst (rows df)
           /\ tr <> []).
Proof.
  intros r df.
  assert (Ef : figure_of r
               = if empty df then no_stocks_figure
                 else mkFigure "Portfolio Value Over Time" (column df "Total"))
    by reflexivity.
  destruct (empty df) eqn:Ee; [left; auto | right].
  split; [reflexivity | ].
  unfold df in *. set (hs := new_store r) in *. clearbody hs.
  destruct (fold_left (add_to_combined history_start) hs None) as [c | ] eqn:Ec.
  - assert (Hcol : column (over_time hs) "Total"
                   = Some (map (fun dr => (fst dr, sum_row (snd dr)))
                               (rows (fillna0 (ffill c))))).
    { rewrite over_time_fold, Ec.
      apply assigned_column, rectangular_filled.
      pose proof (fold_rectangular history_start hs None I) as H.
      now rewrite Ec in H. }
    eexists. split; [rewrite Ef, Hcol; reflexivity | ].
    split; [exact Hcol | ].
    assert (Ed : map fst (map (fun dr : Pandas.date * list float =>
                                 (fst dr, sum_row (snd dr)))
                              (rows (fillna0 (ffill c))))
                 = map fst (rows (over_time hs))).
    { rewrite over_time_fold, Ec. cbn [rows assign_row_sums].
      rewrite !map_map. reflexivity. }
    split; [exact Ed | ].
    intros Hnil. rewrite Hnil in Ed. cbn in Ed. symmetry in Ed.
    apply map_eq_nil in Ed. apply empty_without_rows in Ed.
    rewrite Ed in Ee. discriminate Ee.
  - rewrite over_time_fold, Ec in Ee. discriminate Ee.
Qed.

(** X8: with an empty (or missing) store and an input that is missing or
    falsy, the callback returns the empty store, the figure without data,
    an empty table and the text "No portfolio data yet.", whatever the
    provider would answer. *)
Theorem idle_render (n_clicks : option Z) (ticker : option string)
  (shares : option float) (date : option string)
  (data : option (list holding)) :
  stored data = [] ->
  truthy_opt (fun n => negb (n =? 0)) n_clicks
    && truthy_opt PyStr.truthy ticker
    && truthy_opt PyFloat.truthy shares
    && truthy_opt PyStr.truthy date = false ->
  run n_clicks ticker shares date data
  = ([], no_stocks_figure, [], "No portfolio data yet."%string).
Proof.
  intros Hd Hin. unfold update_portfolio.
  fold (stored data). rewrite Hd.
  destruct n_clicks as [n | ], ticker as [t | ], shares as [s | ],
    date as [d | ]; try reflexivity.
  cbn [truthy_opt] in Hin. rewrite Hin. reflexivity.
Qed.

End Outputs.

Lemma idle_render_witness :
  update_portfolio (stub_start book2) (stub_1d book2)
    (Some 3) (Some "aapl"%string) None (Some "2023-01-03"%string) (Some [])
  = ([], no_stocks_figure, [], "No portfolio data yet."%string).
Proof.
  refine (idle_render (stub_start book2) (stub_1d book2) (Some 3)
            (Some "aapl"%string) None (Some "2023-01-03"%string) (Some [])
            _ _); reflexivity.
Defined.

(** ** Which holdings reach the table *)

Section Rows.

Variable history_start : string -> string -> option series.
Variable history_1d : string -> option series.

Local Abbreviation row_for := (snapshot_of history_start history_1d).
Local Abbreviation table_for := (get_portfolio_table history_start history_1d).
Local Abbreviation answered := (quoted history_start history_1d).

(** A holding gets a row exactly when both fetches are answered with
    rows. *)
Lemma row_iff_quoted (h : holding) :
  row_for h = None <-> answered h = false.
Proof.
  unfold snapshot_of, quoted.
  destruct (history_start (Ticker h) (PurchaseDate h))
    as [[ | [d0 p] hist] | ]; try (split; reflexivity).
  destruct (history_1d (Ticker h)) as [[ | x cur] | ];
    try (split; reflexivity).
  destruct (rev (x :: cur)) as [ | [d1 c] r] eqn:Er.
  - apply (f_equal (@List.length _)) in Er.
    rewrite length_rev in Er. discriminate Er.
  - split; discriminate.
Qed.

(** X9: the table of a store that was extended is the table of the old
    store followed by the rows of the new holdings: earlier rows do not
    depend on later holdings. *)
Theorem table_of_extended_store (old new : list holding) :
  table_for (old ++ new) = table_for old ++ table_for new.
Proof.
  unfold get_portfolio_table at 1. rewrite fold_left_app.
  fold (table_for old). apply table_loop.
Qed.

(** X10: the table lists exactly the holdings for which the provider
    answers both fetches with at least one row, in the order of the store,
    each with its ticker, shares and purchase date copied; so it has as
    many rows as there are such holdings and is never longer than the
    store. *)
Theorem table_lists_priced_holdings (hs : list holding) :
  map key_of_row (table_for hs) = map key_of_holding (filter answered hs)
  /\ List.length (table_for hs) = List.length (filter answered hs)
  /\ (List.length (table_for hs) <= List.length hs)%nat.
Proof.
  induction hs as [ | h hs (IH1 & IH2 & IH3)].
  - repeat split; cbn; lia.
  - rewrite table_cons. cbn [filter].
    destruct (row_for h) as [row | ] eqn:E.
    + assert (Ea : answered h = true).
      { destruct (answered h) eqn:Ea; [reflexivity | ].
        apply row_iff_quoted in Ea. rewrite E in Ea. discriminate Ea. }
      rewrite Ea.
      apply snapshot_of_some in E. destruct E as (p & c & _ & _ & ->).
      cbn [map List.length]. rewrite IH1, IH2.
      repeat split; try reflexivity. lia.
    + apply row_iff_quoted in E. rewrite E.
      repeat split; try assumption. cbn [List.length]. lia.
Qed.

Lemma table_nil (hs : list holding) :
  table_for hs = [] <-> Forall (fun h => row_for h = None) hs.
Proof.
  induction hs as [ | h hs IH].
  - split; [constructor | reflexivity].
  - rewrite table_cons. destruct (row_for h) as [row | ] eqn:E.
    + split; [discriminate | ].
      intros H. inversion H as [ | ? ? Hh _]; subst.
      rewrite E in Hh. discriminate Hh.
    + rewrite IH. split.
      * intros H. now constructor.
      * intros H. now inversion H.
Qed.

(** X11: the summary of the table is the text "No portfolio data yet."
    exactly when the provider answers both fetches with rows for no
    holding of the list, the empty list included; as soon as it does for
    one holding, the summary is the formatted line of the table's totals,
    which is a different text. *)
Theorem no_data_iff_nothing_priced (hs : list holding) :
  (get_portfolio_stats (table_for hs) = "No portfolio data yet."%string
   <-> Forall (fun h => answered h = false) hs)
  /\ (Exists (fun h => answered h = true) hs ->
      get_portfolio_stats (table_for hs)
      = stats_line (total_value (table_for hs)) (total_gain (table_for hs))
          (gain_percent (table_for hs))
      /\ get_portfolio_stats (table_for hs) <> "No portfolio data yet."%string).
Proof.
  assert (Hnil : table_for hs = []
                 <-> Forall (fun h => answered h = false) hs).
  { rewrite table_nil. split; intros H; eapply Forall_impl; try exact H;
      cbn; intros h Hh; now apply row_iff_quoted. }
  assert (Hline : forall row rest,
             get_portfolio_stats (row :: rest)
             <> "No portfolio data yet."%string).
  { intros row rest H. cbn [get_portfolio_stats] in H.
    unfold stats_line in H. cbn [append] in H. discriminate H. }
  split.
  - rewrite <- Hnil. destruct (table_for hs) as [ | row rest].
    + split; reflexivity.
    + split; intros H; [now elim (Hline row rest) | discriminate H].
  - intros Hex. destruct (table_for hs) as [ | row rest] eqn:Et.
    + exfalso. assert (Hall : Forall (fun h => answered h = false) hs)
        by now apply Hnil.
      apply Exists_exists in Hex. destruct Hex as (h & Hin & Hh).
      rewrite Forall_forall in Hall. rewrite (Hall h Hin) in Hh.
      discriminate Hh.
    + split; [reflexivity | apply Hline].
Qed.

End Rows.

(** ** The store across calls *)

Lemma upper_ascii_idempotent (c : ascii) :
  PyStr.upper_ascii (PyStr.upper_ascii c) = PyStr.upper_ascii c.
Proof.
  destruct c as [[ | ] [ | ] [ | ] [ | ] [ | ] [ | ] [ | ] [ | ]];
    vm_compute; reflexivity.
Qed.

Lemma upper_idempotent (s : string) :
  PyStr.upper (PyStr.upper s) = PyStr.upper s.
Proof.
  induction s as [ | c s IH]; [reflexivity | ].
  cbn [PyStr.upper]. now rewrite upper_ascii_idempotent, IH.
Qed.

Lemma upper_nonempty (s : string) :
  s <> ""%string -> PyStr.upper s <> ""%string.
Proof.
  destruct s; [intros H; now elim H | discriminate].
Qed.

Lemma truthy_string (s : string) : PyStr.truthy s = true -> s <> ""%string.
Proof.
  destruct s; [discriminate | discriminate].
Qed.

Section Store.

Variable history_start : string -> string -> option series.
Variable history_1d : string -> option series.

Local Abbreviation run := (update_portfolio history_start history_1d).

(** The store a call returns: the input, with one record appended when
    all four inputs are truthy. *)
Lemma store_cases (n_clicks : option Z) (ticker : option string)
  (shares : option float) (date : option string)
  (data : option (list holding)) :
  new_store (run n_clicks ticker shares date data) = stored data
  \/ exists n t s d,
       n_clicks = Some n /\ ticker = Some t /\ shares = Some s
       /\ date = Some d
       /\ n <> 0 /\ PyStr.truthy t = true /\ PyFloat.truthy s = true
       /\ PyStr.truthy d = true
       /\ new_store (run n_clicks ticker shares date data)
          = stored data ++ [mkHolding (PyStr.upper t) s d].
Proof.
  unfold update_portfolio, new_store; cbn [fst]. fold (stored data).
  destruct n_clicks as [n | ], ticker as [t | ], shares as [s | ],
    date as [d | ]; try (left; reflexivity).
  destruct (negb (n =? 0)) eqn:En; [ | left; reflexivity].
  destruct (PyStr.truthy t) eqn:Et; [ | left; reflexivity].
  destruct (PyFloat.truthy s) eqn:Es; [ | left; reflexivity].
  destruct (PyStr.truthy d) eqn:Ed; [ | left; reflexivity].
  right. exists n, t, s, d. cbn [andb].
  apply negb_true_iff, Z.eqb_neq in En. repeat split; auto.
Qed.

(** X12: no call removes, reorders or changes a holding: the returned
    store is the input store followed by at most one record. *)
Theorem store_only_grows (n_clicks : option Z) (ticker : option string)
  (shares : option float) (date : option string)
  (data : option (list holding)) :
  exists tail,
    new_store (run n_clicks ticker shares date data) = stored data ++ tail
    /\ (List.length tail <= 1)%nat.
Proof.
  destruct (store_cases n_clicks ticker shares date data)
    as [E | (n & t & s & d & _ & _ & _ & _ & _ & _ & _ & _ & E)]; rewrite E.
  - exists []. rewrite app_nil_r. split; [reflexivity | cbn; lia].
  - eexists. split; [reflexivity | cbn; lia].
Qed.

(** X13: if every holding of the input store has an uppercased non-empty
    ticker, shares that are not zero and a non-empty date, so has every
    holding of the returned store. *)
Theorem store_stays_well_formed (n_clicks : option Z)
  (ticker : option string) (shares : option float) (date : option string)
  (data : option (list holding)) :
  Forall well_formed (stored data) ->
  Forall well_formed (new_store (run n_clicks ticker shares date data)).
Proof.
  intros Hold.
  destruct (store_cases n_clicks ticker shares date data)
    as [E | (n & t & s & d & _ & _ & _ & _ & _ & Ht & Hs & Hd & E)];
    rewrite E; [exact Hold | ].
  apply Forall_app. split; [exact Hold | ].
  constructor; [ | constructor].
  unfold well_formed. cbn [Ticker Shares PurchaseDate].
  repeat split.
  - apply upper_idempotent.
  - apply upper_nonempty, truthy_string, Ht.
  - exact Hs.
  - apply truthy_string, Hd.
Qed.

(** X14: holdings are never merged: submitting the same valid form twice
    leaves the same record twice at the end of the store, with the shares
    and the date as given (and, for an ASCII ticker, the uppercased
    ticker). *)
Theorem repeated_ticker_not_merged (n n' : Z) (t : string) (s : float)
  (d : string) (data : option (list holding)) :
  n <> 0 -> n' <> 0 -> t <> ""%string -> PyFloat.truthy s = true ->
  d <> ""%string ->
  let once := new_store (run (Some n) (Some t) (Some s) (Some d) data) in
  exists r,
    new_store (run (Some n') (Some t) (Some s) (Some d) (Some once))
    = stored data ++ [r; r]
    /\ Shares r = s /\ PurchaseDate r = d
    /\ (PyStr.is_ascii t = true -> Ticker r = PyStr.upper t).
Proof.
  intros Hn Hn' Ht Hs Hd once.
  exists (mkHolding (PyStr.upper t) s d). split; [ | cbn; auto].
  rewrite (store_when_valid history_start history_1d n' t s d (Some once)
             Hn' Ht Hs Hd).
  cbn [stored]. unfold once.
  rewrite (store_when_valid history_start history_1d n t s d data
             Hn Ht Hs Hd).
  rewrite <- app_assoc. reflexivity.
Qed.

End Store.

Lemma store_stays_well_formed_witness :
  Forall well_formed
    (new_store (update_portfolio (stub_start book2) (stub_1d book2)
                  (Some 1) (Some "aapl"%string) (Some 10%float)
                  (Some "2023-01-03"%string)
                  (Some [mkHolding "MSFT" 2 "2022-05-02"]))).
Proof.
  refine (store_stays_well_formed (stub_start book2) (stub_1d book2)
            (Some 1) (Some "aapl"%string) (Some 10%float)
            (Some "2023-01-03"%string)
            (Some [mkHolding "MSFT" 2 "2022-05-02"]) _).
  constructor; [ | constructor].
  unfold well_formed. cbn [Ticker Shares PurchaseDate].
  repeat split; discriminate.
Defined.

Lemma repeated_ticker_not_merged_witness :
  let once := new_store (update_portfolio (stub_start book2) (stub_1d book2)
                           (Some 1) (Some "aapl"%string) (Some 10%float)
                           (Some "2023-01-03"%string) (Some [])) in
  exists r,
    new_store (update_portfolio (stub_start book2) (stub_1d book2)
                 (Some 2) (Some "aapl"%string) (Some 10%float)
                 (Some "2023-01-03"%string) (Some once))
    = [r; r]
    /\ Shares r = 10%float /\ PurchaseDate r = "2023-01-03"%string
    /\ Ticker r = "AAPL"%string.
Proof.
  intros once.
  assert (H1 : 1 <> 0) by lia.
  assert (H2 : 2 <> 0) by lia.
  assert (Ht : "aapl"%string <> ""%string) by discriminate.
  assert (Hd : "2023-01-03"%string <> ""%string) by discriminate.
  destruct (repeated_ticker_not_merged (stub_start book2) (stub_1d book2)
              1 2 "aapl" 10 "2023-01-03" (Some []) H1 H2 Ht eq_refl Hd)
    as (r & Hnew & Hs & Hdate & Hup).
  exists r. repeat split; try assumption.
  exact (Hup eq_refl).
Defined.

Lemma only_first_two_contribute_witness :
  portfolio_value_over_time (stub_start book3) three_holdings
  = portfolio_value_over_time (stub_start book3)
      (firstn 2 (filter (fetched (stub_start book3)) three_holdings)).
Proof.
  refine (only_first_two_contribute (stub_start book3) three_holdings _).
  repeat constructor; discriminate.
Defined.

Lemma no_prices_empty_frame_witness :
  empty (portfolio_value_over_time (stub_start [("ZZZ"%string, [])])
           [mkHolding "NOPE" 1 "2023-01-03"; mkHolding "ZZZ" 4 "2023-01-03"])
  = true.
Proof.
  refine (no_prices_empty_frame (stub_start [("ZZZ"%string, [])])
            [mkHolding "NOPE" 1 "2023-01-03"; mkHolding "ZZZ" 4 "2023-01-03"]
            _).
  constructor; [left; reflexivity | ].
  constructor; [right; reflexivity | constructor].
Defined.

Lemma total_column_is_row_sums_witness :
  column (portfolio_value_over_time (stub_start book3)
            [mkHolding "AAA" 2 "2024-01-01"; mkHolding "BBB" 1 "2024-01-02"])
    "Total"
  = Some [(1, 20%float); (2, 27%float); (3, 28%float); (4, 30%float)].
Proof.
  pose proof (total_column_is_row_sums (stub_start book3)
                [mkHolding "AAA" 2 "2024-01-01"; mkHolding "BBB" 1 "2024-01-02"]
                _ eq_refl) as H.
  rewrite H. vm_compute. reflexivity.
Defined.

Lemma rows_end_with_their_sum_witness :
  exists cells,
    [22; 6; 28]%float = cells ++ [sum_row cells]
    /\ Forall (fun x => is_nan x = false) cells
    /\ S (List.length cells) = 3%nat.
Proof.
  refine (rows_end_with_their_sum (stub_start book3) three_holdings 3
            [22; 6; 28]%float _ _).
  - repeat constructor; discriminate.
  - vm_compute. right. right. left. reflexivity.
Defined.

(** ** Rows and dates across the whole list *)

Section Whole.

Variable history_start : string -> string -> option series.
Variable history_1d : string -> option series.

Local Abbreviation run := (update_portfolio history_start history_1d).
Local Abbreviation table_for := (get_portfolio_table history_start history_1d).
Local Abbreviation over_time := (portfolio_value_over_time history_start).

(** X15: the table a call returns begins with the rows of the holdings
    that were already in the store, unchanged and in the same order, and
    has at most one row more. *)
Theorem call_keeps_earlier_rows (n_clicks : option Z)
  (ticker : option string) (shares : option float) (date : option string)
  (data : option (list holding)) :
  exists extra,
    table_of (run n_clicks ticker shares date data)
    = table_for (stored data) ++ extra
    /\ (List.length extra <= 1)%nat.
Proof.
  assert (E : table_of (run n_clicks ticker shares date data)
              = table_for (new_store (run n_clicks ticker shares date data)))
    by reflexivity.
  rewrite E.
  destruct (store_cases history_start history_1d n_clicks ticker shares
              date data)
    as [-> | (n & t & s & d & _ & _ & _ & _ & _ & _ & _ & _ & ->)].
  - exists []. rewrite app_nil_r. split; [reflexivity | cbn; lia].
  - set (h := mkHolding (PyStr.upper t) s d).
    exists (table_for [h]). split.
    + unfold get_portfolio_table at 1. rewrite fold_left_app.
      fold (table_for (stored data)). apply table_loop.
    + rewrite table_cons.
      destruct (snapshot_of history_start history_1d h); cbn; lia.
Qed.

(** X16: as soon as two holdings are fetched, with histories in
    increasing date order, the dates of the frame are strictly increasing
    and are exactly the dates of the first two fetched histories; dates
    that only a later holding has never appear. *)
Theorem index_of_two_or_more (hs rest : list holding) (a b : holding)
  (pa pb : series) :
  Forall (fun h => Ticker h <> "Close"%string) hs ->
  filter (fetched history_start) hs = a :: b :: rest ->
  history_start (Ticker a) (PurchaseDate a) = Some pa ->
  history_start (Ticker b) (PurchaseDate b) = Some pb ->
  StronglySorted Z.lt (map fst pa) -> StronglySorted Z.lt (map fst pb) ->
  StronglySorted Z.lt (map fst (rows (over_time hs)))
  /\ forall d, In d (map fst (rows (over_time hs)))
               <-> In d (map fst pa) \/ In d (map fst pb).
Proof.
  intros Hn Hf Ea Eb _ _.
  assert (Ed : map fst (rows (over_time hs))
               = union_index (map fst pa) (map fst pb)).
  { rewrite over_time_fold.
    rewrite (fold_first_two history_start hs rest a b pa pb Hn Hf Ea Eb).
    cbn [rows assign_row_sums fillna0 ffill columns].
    rewrite !map_map. cbn [fst].
    change (map (fun x : Pandas.date * list float => fst x) ?l)
      with (map fst l).
    rewrite ffill_from_dates. unfold joined_rows. rewrite map_map. cbn [fst].
    rewrite map_id. now rewrite !scale_dates. }
  rewrite Ed. split.
  - apply union_index_sorted.
  - intros d. apply union_index_In.
Qed.

End Whole.

Lemma index_of_two_or_more_witness :
  map fst (rows (portfolio_value_over_time (stub_start book3) three_holdings))
  = [1; 2; 3; 4]
  /\ StronglySorted Z.lt
       (map fst (rows (portfolio_value_over_time (stub_start book3)
                         three_holdings))).
Proof.
  pose proof (index_of_two_or_more (stub_start book3) three_holdings
                [mkHolding "CCC" 1 "2024-01-01"]
                (mkHolding "AAA" 2 "2024-01-01")
                (mkHolding "BBB" 1 "2024-01-02")
                [(1, 10%float); (2, 11%float); (4, 12%float)]
                [(2, 5%float); (3, 6%float)]) as H.
  destruct H as [Hs _].
  - repeat constructor; discriminate.
  - reflexivity.
  - reflexivity.
  - reflexivity.
  - repeat constructor; cbn; lia.
  - repeat constructor; cbn; lia.
  - split; [vm_compute; reflexivity | exact Hs].
Defined.
